(** * generate_fake_frames: auxiliary channel synthesis and frame splitting

    A shallow embedding of [generate_fake_frames.py]: the state vector, DQ
    vector and iDQ channels built next to the conditioned strain, the
    interval-to-index overrides applied to them, and the splitting of the
    channel set into frames.

    In the model of the whole run, times and real-valued samples are exact
    rationals ([Q]); the unsigned 32-bit samples of the state and DQ vectors
    are integers ([Z]) reduced modulo [2^32] when stored. The bad-epoch
    overrides of the DQ vector and of the iDQ channel, whose tests and
    increments round, are also given over an arithmetic left open, with the
    exact rationals and binary64 as instances. *)

From Stdlib Require PrimFloat.
From Stdlib Require Import ZArith QArith Qabs Qround Lia Lqa String.
From stdpp Require Import base option list.

Local Open Scope string_scope.

(** ** Rational comparisons used by the masks *)

(** [x < y] on arrays of times, as a boolean. *)
Definition Qltb (x y : Q) : bool := (Qnum x * QDen y <? Qnum y * QDen x)%Z.


(** ** numpy primitives *)

(** [np.flatnonzero(mask)]: the indices of the true entries, ascending. *)
Fixpoint flatnonzero_from (i : nat) (mask : list bool) : list nat :=
  match mask with
  | [] => []
  | b :: mask' =>
      if b then i :: flatnonzero_from (S i) mask'
      else flatnonzero_from (S i) mask'
  end.

Definition flatnonzero (mask : list bool) : list nat := flatnonzero_from 0 mask.

(** [a[i0:stop] = f(a[i0:stop])]: the slice is rebuilt in place, the prefix
    and the suffix are kept. An empty slice ([stop <= i0]) changes nothing. *)
Definition slice_update {A : Type} (f : A -> A) (i0 stop : nat) (a : list A)
  : list A :=
  take i0 a ++ (f <$> take (stop - i0) (drop i0 a)) ++ drop (i0 + (stop - i0)) a.

(** The inclusive index range [(fnz[0], fnz[-1])] spanned by the selected
    indices, when [len(fnz)] is not zero. *)
Definition index_range (fnz : list nat) : option (nat * nat) :=
  match fnz with
  | [] => None
  | i0 :: _ => Some (i0, default i0 (last fnz))
  end.

(** The guarded block assignment shared by the three override loops:
<<
    if len(fnz):
        ts[fnz[0]:fnz[-1]+1] (op)= v
>> *)
Definition override {A : Type} (f : A -> A) (fnz : list nat) (ts : list A)
  : list A :=
  match index_range fnz with
  | None => ts
  | Some (i0, i1) => slice_update f i0 (S i1) ts
  end.

(** ** Time series *)

Record TimeSeries (A : Type) : Type := mkTimeSeries {
  data : list A;
  delta_t : Q;
  start_time : Q
}.
Arguments mkTimeSeries {A} _ _ _.
Arguments data {A} _.
Arguments delta_t {A} _.
Arguments start_time {A} _.

(** [ts.sample_times]: sample [i] is at [i * delta_t + start_time]. *)
Definition sample_time (dt epoch : Q) (i : nat) : Q :=
  (inject_Z (Z.of_nat i) * dt + epoch)%Q.

Definition sample_times {A : Type} (ts : TimeSeries A) : list Q :=
  sample_time (delta_t ts) (start_time ts) <$> seq 0 (length (data ts)).

(** [len(ts) * ts.delta_t] *)
Definition duration {A : Type} (ts : TimeSeries A) : Q :=
  (inject_Z (Z.of_nat (length (data ts))) * delta_t ts)%Q.

(** [int(q)]: truncation toward zero. *)
Definition py_int (q : Q) : Z := Z.quot (Qnum q) (QDen q).

(** A Python integer stored in an array of dtype [np.uint32]. *)
Definition uint32 (v : Z) : Z := (v mod 2 ^ 32)%Z.


(** ** Masks over the sample times *)

(** [np.logical_and(times >= start, times < end)] *)
Definition segment_mask (times : list Q) (start stop : Q) : list bool :=
  (fun t => Qle_bool start t && Qltb t stop) <$> times.

(** [abs(times - center) < pad], in exact arithmetic; [rounded_epoch_mask]
    is the same test over an arithmetic that rounds. *)
Definition epoch_mask (times : list Q) (center pad : Q) : list bool :=
  (fun t => Qltb (Qabs (t - center)) pad) <$> times.

(** A mask is convex when its true entries have no false entry between them. *)
Definition convex_mask (mask : list bool) : Prop :=
  forall i j k : nat,
    i <= j <= k -> mask !! i = Some true -> mask !! k = Some true ->
    mask !! j = Some true.

(** A predicate on times is convex when it holds between any two times where
    it holds. *)
Definition convex_pred (P : Q -> bool) : Prop :=
  forall x y z : Q,
    (x <= y)%Q -> (y <= z)%Q -> P x = true -> P z = true -> P y = true.


(** ** Auxiliary channels (lines 135-202) *)

(** [np.zeros(size, dtype=np.uint32)] followed by [a[:] = good]. *)
Definition filled_uint32 (size : nat) (good : Z) : list Z :=
  let zeros := replicate size 0%Z in
  slice_update (fun _ => uint32 good) 0 (length zeros) zeros.

(** *** State vector *)

Definition state_dt : Q := 1 # 16.

(** [int(strain.duration / state_dt)] *)
Definition state_size {A : Type} (strain : TimeSeries A) : Z :=
  py_int (duration strain / state_dt).

(** One turn of the loop over [args.state_off_segments]; [ss] is the pair
    [map(float, ss.split(','))] yields. *)
Definition state_off (state_ts_times : list Q) (state_ts : list Z) (ss : Q * Q)
  : list Z :=
  let '(start, end_) := ss in
  let fnz := flatnonzero (segment_mask state_ts_times start end_) in
  override (fun _ => 0%Z) fnz state_ts.

Definition state_vector_ts (state_vector_good : Z) (state_off_segments : list (Q * Q))
           (epoch : Q) (size : nat) : TimeSeries Z :=
  let state_data := filled_uint32 size state_vector_good in
  let state_ts := mkTimeSeries state_data state_dt epoch in
  let state_ts_times := sample_times state_ts in
  mkTimeSeries (foldl (state_off state_ts_times) state_data state_off_segments)
               state_dt epoch.

(** *** DQ vector *)

Definition dq_dt : Q := 1 # 64.

Definition dq_size {A : Type} (strain : TimeSeries A) : Z :=
  py_int (duration strain / dq_dt).

(** Virgo DQ stream style when the good value is 0, LIGO DQ vector style
    otherwise. *)
Definition dq_bad (dq_vector_good : Z) : Z :=
  if (dq_vector_good =? 0)%Z then 1%Z else 0%Z.

(** One turn of the loop over [args.dq_bad_times]. *)
Definition dq_flag (dt_ts_times : list Q) (dq_bad_pad : Q) (bad : Z)
           (dq_ts : list Z) (dqt : Q) : list Z :=
  let fnz := flatnonzero (epoch_mask dt_ts_times dqt dq_bad_pad) in
  override (fun _ => bad) fnz dq_ts.

Definition dq_vector_ts (dq_vector_good : Z) (dq_bad_times : list Q) (dq_bad_pad : Q)
           (epoch : Q) (size : nat) : TimeSeries Z :=
  let dq_data := filled_uint32 size dq_vector_good in
  let dq_ts := mkTimeSeries dq_data dq_dt epoch in
  let dt_ts_times := sample_times dq_ts in
  mkTimeSeries
    (foldl (dq_flag dt_ts_times dq_bad_pad (dq_bad dq_vector_good)) dq_data dq_bad_times)
    dq_dt epoch.

(** *** iDQ channel *)

(** One turn of the loop over [args.idq_bad_times], in exact arithmetic;
    [rounded_idq_bump] is the same turn over an arithmetic that rounds. *)
Definition idq_bump (idq_ts_times : list Q) (idq_bad_pad : Q)
           (idq_ts : list Q) (idqt : Q) : list Q :=
  let fnz := flatnonzero (epoch_mask idq_ts_times idqt idq_bad_pad) in
  override (fun x => (x + 6)%Q) fnz idq_ts.

Section Generator.

(** numpy's generator, as far as the script relies on it:
    [normal_draw s i] is the [i]-th standard normal variate of a generator
    whose bit generator was seeded with [s]. *)
Variable normal_draw : Z -> nat -> Q.

(** [default_rng(seed)]: a given seed fixes the stream; with no seed
    ([None]) numpy seeds the generator from fresh operating-system
    entropy. The generator is represented by its effective seed. *)
Definition default_rng (seed : option Z) (os_entropy : Z) : Z :=
  match seed with
  | Some s => s
  | None => os_entropy
  end.

(** [rng.standard_normal(size)] *)
Definition standard_normal (rng : Z) (size : nat) : list Q :=
  normal_draw rng <$> seq 0 size.

(** [rng.standard_normal(idq_size) - 1] *)
Definition idq_baseline (random_seed : option Z) (os_entropy : Z) (idq_size : nat)
  : list Q :=
  let rng := default_rng random_seed os_entropy in
  (fun x => (x - 1)%Q) <$> standard_normal rng idq_size.

Definition idq_channel_ts (random_seed : option Z) (os_entropy : Z)
           (idq_bad_times : list Q) (idq_bad_pad : Q)
           (idq_dt epoch : Q) (idq_size : nat) : TimeSeries Q :=
  let idq_data := idq_baseline random_seed os_entropy idq_size in
  let idq_ts := mkTimeSeries idq_data idq_dt epoch in
  let idq_ts_times := sample_times idq_ts in
  mkTimeSeries (foldl (idq_bump idq_ts_times idq_bad_pad) idq_data idq_bad_times)
               idq_dt epoch.

End Generator.

(** ** Frame splitting (lines 204-216) *)

(** [range(start, stop, step)] for a positive step: [start], [start + step],
    ... while below [stop]. *)
Definition py_range (start stop step : Z) : list Z :=
  let len := Z.to_nat ((stop - start + step - 1) / step) in
  (fun k => (start + Z.of_nat k * step)%Z) <$> seq 0 len.

(** One frame: the slice bounds handed to [time_slice] and the values the
    file name is formatted with. *)
Record Segment : Type := mkSegment {
  seg_start : Z;
  seg_end : Z;
  seg_duration : Z
}.

Definition segment_at (stop step s : Z) : Segment :=
  mkSegment s
            (if (s + step <? stop)%Z then (s + step)%Z else stop)
            (if (s + step <? stop)%Z then step else (stop - s)%Z).

Definition segments (start stop step : Z) : list Segment :=
  segment_at stop step <$> py_range start stop step.

(** ** The script as a whole *)

(** Exceptions that end a run. *)
Inductive PyError : Type :=
| SystemExit (code : Z)
| NameError (name : string)
| AttributeError (attr : string)
| TypeError
| ValueError (msg : string)
| UpstreamError (msg : string).

(** A channel handed to the writer: unsigned 32-bit or floating-point. *)
Inductive Series : Type :=
| UInt32Series (ts : TimeSeries Z)
| FloatSeries (ts : TimeSeries Q).

(** What a run does to the outside world, in order. *)
Inductive Event : Type :=
| Log (msg : string)
| FileOpen (path mode : string)
| FileWrite (path line : string)
| FileClose (path : string)
| WriteFrame (file_name : string) (channels : list string) (series : list Series).

(** A computation: the events so far, and an exception or a value. *)
Definition M (A : Type) : Type := (list Event * (PyError + A))%type.

Definition ret {A : Type} (x : A) : M A := ([], inr x).

Definition raise {A : Type} (e : PyError) : M A := ([], inl e).

Definition emit (e : Event) : M unit := ([e], inr tt).

Definition bind {A B : Type} (c : M A) (k : A -> M B) : M B :=
  match c with
  | (tr, inl e) => (tr, inl e)
  | (tr, inr x) => let '(tr', r) := k x in ((tr ++ tr')%list, r)
  end.

Notation "x <- c ;; k" := (bind c (fun x => k))
  (at level 100, c at next level, right associativity).
Notation "c ;; k" := (bind c (fun _ => k))
  (at level 100, right associativity).

Definition lift {A : Type} (r : PyError + A) : M A := ([], r).

(** [for x in l: body(x)] *)
Fixpoint for_each {A : Type} (l : list A) (body : A -> M unit) : M unit :=
  match l with
  | [] => ret tt
  | x :: l' => body x ;; for_each l' body
  end.

(** [[f(x) for x in l]] *)
Fixpoint for_list {A B : Type} (l : list A) (f : A -> M B) : M (list B) :=
  match l with
  | [] => ret []
  | x :: l' => y <- f x ;; ys <- for_list l' f ;; ret (y :: ys)
  end.

(** The files a run wrote to: every event but the log messages. *)
Definition is_output (e : Event) : bool :=
  match e with
  | Log _ => false
  | _ => true
  end.

Definition outputs (tr : list Event) : list Event := List.filter is_output tr.

Definition failed {A : Type} (c : M A) : Prop := exists e, snd c = inl e.

(** [s.endswith(suffix)] *)
Definition endswith (s suffix : string) : bool :=
  let n := String.length s in
  let m := String.length suffix in
  (m <=? n)%nat && String.eqb (substring (n - m) m s) suffix.

Inductive Precision : Type := single | double.

(** The parsed command line: an option that was not given is [None]. The
    off segments are the pairs their [START,STOP] strings convert to. *)
Record Args : Type := mkArgs {
  output_file : string;
  output_precision : Precision;
  output_gates_file : option string;
  dyn_range_factor : bool;
  frame_duration : option Z;
  state_vector : option string;
  state_vector_good : option Z;
  state_off_segments : option (list (Q * Q));
  dq_vector : option string;
  dq_vector_good : option Z;
  dq_bad_times : option (list Q);
  dq_bad_pad : option Q;
  idq_channel : option string;
  random_seed : option Z;
  idq_bad_times : option (list Q);
  idq_bad_pad : option Q;
  channel_name : string;
  gps_start_time : Z;
  gps_end_time : Z
}.

(** The conditioned strain and its gating log: per gate identifier, in the
    order [items()] yields them, the [(t, w, p)] triples. *)
Record Strain : Type := mkStrain {
  strain_ts : TimeSeries Q;
  gating_info : list (string * list (Q * Q * Q))
}.

(** Truth value of an optional string or integer in an [if]. *)
Definition truthy_str (o : option string) : bool :=
  match o with
  | Some (String _ _) => true
  | _ => false
  end.

Definition truthy_int (o : option Z) : bool :=
  match o with
  | Some d => negb (d =? 0)%Z
  | None => false
  end.

(** Using an option that was not given where a number or a list is needed
    raises TypeError. *)
Definition required {A : Type} (o : option A) : M A :=
  match o with
  | Some x => ret x
  | None => raise TypeError
  end.

(** [np.zeros(size)]: a negative size is refused. *)
Definition np_zeros_size (size : Z) : M nat :=
  if (size <? 0)%Z then raise (ValueError "negative dimensions are not allowed")
  else ret (Z.to_nat size).

(** The checks of pycbc's [TimeSeries] constructor. *)
Definition TimeSeries_check (size : nat) (dt : Q) : M unit :=
  if (size <? 1)%nat
  then raise (ValueError "initial_array must contain at least one sample.")
  else if Qle_bool dt 0 then raise (ValueError "delta_t must be a positive number")
  else ret tt.

(** Line 117 opens the gate file with [file]. The script binds no such name
    and Python 3 has no such builtin (the script needs Python 3: line 33
    imports [default_rng], which no numpy for Python 2 provides), so the
    lookup raises NameError. *)
Definition file (name mode : string) : M string := raise (NameError "file").

(** [write_strain] is always called with lists (of names and of series): the
    frame writer takes them, a list has no [save]. *)
Definition write_strain (file_name : string) (channel : list string)
           (data : list Series) : M unit :=
  emit (Log ("Writing output strain to " ++ file_name)%string) ;;
  if endswith file_name ".gwf" then emit (WriteFrame file_name channel data)
  else if endswith file_name ".hdf" || endswith file_name ".h5"
       then raise (AttributeError "save")
       else raise (ValueError ("Unknown extension for " ++ file_name)%string).

Section Script.

(** Collaborators outside the script. *)
Variable normal_draw : Z -> nat -> Q.
Variable from_cli : Args -> PyError + Strain.
Variable astype : Precision -> list Q -> list Q.
Variable DYN_RANGE_FAC : Q.
(** ['%.4f %.2f %.2f\n' % (t, w, p)] *)
Variable format_gate : Q -> Q -> Q -> string.
(** [args.output_file.format(start=s, duration=d)] *)
Variable format_name : string -> Z -> Z -> PyError + string.
(** [ts.time_slice(start, end)] *)
Variable time_slice : Series -> Z -> Z -> PyError + Series.

(** Lines 105-106. *)
Definition check_frame_duration (args : Args) : M unit :=
  match frame_duration args with
  | Some d => if (d <=? 0)%Z then raise (SystemExit 2) else ret tt
  | None => ret tt
  end.

(** Lines 115-120. *)
Definition write_gates (args : Args) (strain : Strain) : M unit :=
  if truthy_str (output_gates_file args) then
    emit (Log "Writing output gates") ;;
    gate_f <- file (default EmptyString (output_gates_file args)) "wb" ;;
    for_each (gating_info strain) (fun kv =>
      for_each (snd kv) (fun twp =>
        let '(t, w, p) := twp in
        emit (FileWrite gate_f (format_gate t w p)))) ;;
    emit (FileClose gate_f)
  else ret tt.

(** Lines 122-128. *)
Definition normalize (args : Args) (strain : TimeSeries Q) : TimeSeries Q :=
  let strain := mkTimeSeries (astype (output_precision args) (data strain))
                             (delta_t strain) (start_time strain) in
  if dyn_range_factor args then strain
  else mkTimeSeries ((fun x => (x / DYN_RANGE_FAC)%Q) <$> data strain)
                    (delta_t strain) (start_time strain).

(** Lines 135-153. *)
Definition add_state_vector (args : Args) (strain : TimeSeries Q)
  : M (list (string * Series)) :=
  match state_vector args with
  | None => ret []
  | Some name =>
      size <- np_zeros_size (state_size strain) ;;
      good <- required (state_vector_good args) ;;
      TimeSeries_check size state_dt ;;
      segs <- required (state_off_segments args) ;;
      ret [(name, UInt32Series (state_vector_ts good segs (start_time strain) size))]
  end.

(** Lines 157-181. The pad is first used in the first turn of the loop. *)
Definition add_dq_vector (args : Args) (strain : TimeSeries Q)
  : M (list (string * Series)) :=
  match dq_vector args with
  | None => ret []
  | Some name =>
      size <- np_zeros_size (dq_size strain) ;;
      good <- required (dq_vector_good args) ;;
      TimeSeries_check size dq_dt ;;
      bad_times <- required (dq_bad_times args) ;;
      pad <- match bad_times with
             | [] => ret 0%Q
             | _ :: _ => required (dq_bad_pad args)
             end ;;
      ret [(name, UInt32Series (dq_vector_ts good bad_times pad (start_time strain) size))]
  end.

(** Lines 185-202. *)
Definition add_idq (args : Args) (os_entropy : Z) (strain : TimeSeries Q)
  : M (list (string * Series)) :=
  match idq_channel args with
  | None => ret []
  | Some name =>
      let idq_dt := delta_t strain in
      let idq_size := length (data strain) in
      TimeSeries_check idq_size idq_dt ;;
      bad_times <- required (idq_bad_times args) ;;
      pad <- match bad_times with
             | [] => ret 0%Q
             | _ :: _ => required (idq_bad_pad args)
             end ;;
      ret [(name, FloatSeries (idq_channel_ts normal_draw (random_seed args) os_entropy
                                 bad_times pad idq_dt (start_time strain) idq_size))]
  end.

(** Lines 204-216. *)
Definition write_output (args : Args) (out_channel_names : list string)
           (out_timeseries : list Series) : M unit :=
  if truthy_int (frame_duration args) then
    let start := gps_start_time args in
    let stop := gps_end_time args in
    let step := default 0%Z (frame_duration args) in
    for_each (segments start stop step) (fun seg =>
      out_ts <- for_list out_timeseries
                  (fun ts => lift (time_slice ts (seg_start seg) (seg_end seg))) ;;
      complete_fn <- lift (format_name (output_file args) (seg_start seg)
                                       (seg_duration seg)) ;;
      write_strain complete_fn out_channel_names out_ts)
  else write_strain (output_file args) out_channel_names out_timeseries.

(** The script, from the parsed arguments to its last log line. *)
Definition run (args : Args) (os_entropy : Z) : M unit :=
  check_frame_duration args ;;
  strain <- lift (from_cli args) ;;
  write_gates args strain ;;
  let strain := normalize args (strain_ts strain) in
  state <- add_state_vector args strain ;;
  dq <- add_dq_vector args strain ;;
  idq <- add_idq args os_entropy strain ;;
  let channels := ((channel_name args, FloatSeries strain) :: state ++ dq ++ idq)%list in
  write_output args (fst <$> channels) (snd <$> channels) ;;
  emit (Log "Done").

End Script.

(** ** Vocabulary of the statements *)

(** The interval-to-index mapping of the override loops: the inclusive index
    range of the samples of [ts] selected by [start <= t < end]. *)
Definition time_index_range {A : Type} (ts : TimeSeries A) (t0 t1 : Q)
  : option (nat * nat) :=
  index_range (flatnonzero (segment_mask (sample_times ts) t0 t1)).

(** The time [t] lies in the half-open segment [ss]. *)
Definition in_segment (t : Q) (ss : Q * Q) : bool :=
  Qle_bool (fst ss) t && Qltb t (snd ss).

(** The time [t] is closer than [pad] to the center [c], in exact
    arithmetic. *)
Definition in_epoch (pad t c : Q) : bool := Qltb (Qabs (t - c)) pad.

(** How many entries of [xs] satisfy [P]. *)
Definition count_hits {B : Type} (P : B -> bool) (xs : list B) : nat :=
  length (List.filter P xs).

(** [tiles a b segs]: the segments follow one another from [a] to [b], each
    of positive duration, none overlapping the next, with no gap. *)
Fixpoint tiles (a b : Z) (segs : list Segment) : Prop :=
  match segs with
  | [] => a = b
  | seg :: segs' =>
      seg_start seg = a /\
      (0 < seg_duration seg)%Z /\
      seg_end seg = (seg_start seg + seg_duration seg)%Z /\
      (seg_end seg <= b)%Z /\
      tiles (seg_end seg) b segs'
  end.

Definition total_duration (segs : list Segment) : Z :=
  foldr Z.add 0%Z (seg_duration <$> segs).

(** What the block assignment [op] may touch, given the mask it was computed
    from: nothing when the mask selects no sample; otherwise the block from
    the first to the last selected index, where it applies [f], and nothing
    outside it. *)
Definition frame_of_block {A : Type} (f : A -> A) (mask : list bool)
           (op : list A -> list A) : Prop :=
  forall d : list A,
    length (op d) = length d /\
    ((forall k, mask !! k <> Some true) -> op d = d) /\
    (forall i0 i1 : nat,
        index_range (flatnonzero mask) = Some (i0, i1) ->
        mask !! i0 = Some true /\ mask !! i1 = Some true /\
        (forall k, mask !! k = Some true -> i0 <= k <= i1) /\
        (forall i, ~ (i0 <= i <= i1) -> op d !! i = d !! i) /\
        (forall i, i0 <= i <= i1 -> op d !! i = f <$> d !! i)).

(** An auxiliary channel is enabled while a sub-parameter its synthesis
    reads as a number or a list is absent. *)
Definition missing_sub_parameter (args : Args) : Prop :=
  (state_vector args <> None /\
   (state_vector_good args = None \/ state_off_segments args = None)) \/
  (dq_vector args <> None /\
   (dq_vector_good args = None \/ dq_bad_times args = None \/
    (dq_bad_pad args = None /\ dq_bad_times args <> Some []))) \/
  (idq_channel args <> None /\
   (idq_bad_times args = None \/
    (idq_bad_pad args = None /\ idq_bad_times args <> Some []))).

(** A computation wrote to no file. *)
Definition quiet {A : Type} (c : M A) : Prop := outputs (fst c) = [].

(** A computation failed before writing to any file. *)
Definition dies {A : Type} (c : M A) : Prop := failed c /\ quiet c.

(** ** Example inputs *)

(** A strain of four samples at 1/4 s starting at 0, with one gate. *)
Definition example_strain : Strain :=
  mkStrain (mkTimeSeries [0%Q; 0%Q; 0%Q; 0%Q] (1 # 4) 0)
           [("H1", [((1 # 2)%Q, (1 # 4)%Q, (1 # 4)%Q)])].

(** Arguments with no auxiliary sub-parameter but those of the iDQ channel,
    for a given frame duration, gate file and channel names. *)
Definition example_args (frame : option Z) (gates state idq : option string) : Args :=
  {| output_file := "out.gwf";
     output_precision := double;
     output_gates_file := gates;
     dyn_range_factor := true;
     frame_duration := frame;
     state_vector := state;
     state_vector_good := None;
     state_off_segments := None;
     dq_vector := None;
     dq_vector_good := None;
     dq_bad_times := None;
     dq_bad_pad := None;
     idq_channel := idq;
     random_seed := None;
     idq_bad_times := Some [(1 # 2)%Q];
     idq_bad_pad := Some (1 # 4)%Q;
     channel_name := "H1:STRAIN";
     gps_start_time := 0;
     gps_end_time := 1 |}.

(** Stand-ins for the collaborators. *)
Definition example_normal_draw (s : Z) (i : nat) : Q := inject_Z (s + Z.of_nat i).

Definition example_from_cli (args : Args) : PyError + Strain := inr example_strain.

Definition example_astype (p : Precision) (l : list Q) : list Q := l.

Definition example_format_gate (t w p : Q) : string := "gate".

Definition example_format_name (name : string) (start dur : Z) : PyError + string :=
  inr name.

Definition example_time_slice (ts : Series) (start stop : Z) : PyError + Series :=
  inr ts.

(** The run of the script on the example collaborators. *)
Definition example_run (args : Args) (os_entropy : Z) : M unit :=
  run example_normal_draw example_from_cli example_astype 1 example_format_gate
      example_format_name example_time_slice args os_entropy.

(** ** Vocabulary of the statements about whole runs *)


(** Start time, spacing and length of a channel, whatever its sample type. *)
Definition series_start_time (s : Series) : Q :=
  match s with
  | UInt32Series ts => start_time ts
  | FloatSeries ts => start_time ts
  end.

Definition series_delta_t (s : Series) : Q :=
  match s with
  | UInt32Series ts => delta_t ts
  | FloatSeries ts => delta_t ts
  end.

Definition series_length (s : Series) : nat :=
  match s with
  | UInt32Series ts => length (data ts)
  | FloatSeries ts => length (data ts)
  end.

(** The frames a run wrote, in order. *)
Definition is_frame (e : Event) : bool :=
  match e with
  | WriteFrame _ _ _ => true
  | _ => false
  end.

Definition frames (tr : list Event) : list Event := List.filter is_frame tr.

(** An event that is not a frame written to a file whose name does not end
    in [.gwf]. *)
Definition frame_to_gwf (e : Event) : Prop :=
  match e with
  | WriteFrame file_name _ _ => exists prefix, file_name = (prefix ++ ".gwf")%string
  | _ => True
  end.

(** ** Further example inputs *)

(** A strain source that fails. *)
Definition example_failing_from_cli (args : Args) : PyError + Strain :=
  inl (UpstreamError "no frame data").

(** The example arguments with an iDQ channel, no frame splitting and an HDF
    destination. *)
Definition example_hdf_args : Args :=
  {| output_file := "out.hdf";
     output_precision := double;
     output_gates_file := None;
     dyn_range_factor := true;
     frame_duration := None;
     state_vector := None;
     state_vector_good := None;
     state_off_segments := None;
     dq_vector := None;
     dq_vector_good := None;
     dq_bad_times := None;
     dq_bad_pad := None;
     idq_channel := Some "IDQ";
     random_seed := Some 11%Z;
     idq_bad_times := Some [(1 # 2)%Q];
     idq_bad_pad := Some (1 # 4)%Q;
     channel_name := "H1:STRAIN";
     gps_start_time := 0;
     gps_end_time := 1 |}.

(** ** The bad-epoch overrides over a rounding arithmetic *)

(** The arithmetic the overrides of lines 175-178 and 196-199 compute in:
    comparisons, the operations on array elements, and [float(i)]. *)
Record Arith : Type := mkArith {
  num : Type;
  num_le : num -> num -> bool;
  num_lt : num -> num -> bool;
  num_add : num -> num -> num;
  num_sub : num -> num -> num;
  num_mul : num -> num -> num;
  num_div : num -> num -> num;
  num_abs : num -> num;
  num_of_nat : nat -> num
}.

(** Exact rational arithmetic. *)
Definition exact : Arith :=
  {| num := Q;
     num_le := Qle_bool;
     num_lt := Qltb;
     num_add := Qplus;
     num_sub := Qminus;
     num_mul := Qmult;
     num_div := Qdiv;
     num_abs := Qabs;
     num_of_nat := fun i => inject_Z (Z.of_nat i) |}.

(** IEEE 754 binary64, the arithmetic of Python floats and of numpy's
    float64 arrays. [float(i)] is built by adding 1, which is exact below
    2^53. *)
Definition binary64_of_nat (i : nat) : PrimFloat.float :=
  Nat.iter i (fun x => PrimFloat.add x PrimFloat.one) PrimFloat.zero.

Definition binary64 : Arith :=
  {| num := PrimFloat.float;
     num_le := PrimFloat.leb;
     num_lt := PrimFloat.ltb;
     num_add := PrimFloat.add;
     num_sub := PrimFloat.sub;
     num_mul := PrimFloat.mul;
     num_div := PrimFloat.div;
     num_abs := PrimFloat.abs;
     num_of_nat := binary64_of_nat |}.

Section Rounded.

Variable a : Arith.

(** Sample [i] of a series: [i * delta_t + epoch], each operation rounded. *)
Definition rounded_time (dt epoch : num a) (i : nat) : num a :=
  num_add a (num_mul a (num_of_nat a i) dt) epoch.

Definition rounded_sample_times (dt epoch : num a) (size : nat) : list (num a) :=
  rounded_time dt epoch <$> seq 0 size.

(** [abs(times - center) < pad] *)
Definition rounded_epoch_mask (times : list (num a)) (center pad : num a) : list bool :=
  (fun t => num_lt a (num_abs a (num_sub a t center)) pad) <$> times.

(** [1. / 64.] *)
Definition rounded_dq_dt : num a := num_div a (num_of_nat a 1) (num_of_nat a 64).

(** One turn of the loop over [args.dq_bad_times]. *)
Definition rounded_dq_flag (dt_ts_times : list (num a)) (dq_bad_pad : num a) (bad : Z)
           (dq_ts : list Z) (dqt : num a) : list Z :=
  let fnz := flatnonzero (rounded_epoch_mask dt_ts_times dqt dq_bad_pad) in
  override (fun _ => bad) fnz dq_ts.

(** The samples of the DQ vector (lines 159-178). *)
Definition rounded_dq_data (dq_vector_good : Z) (dq_bad_times : list (num a))
           (dq_bad_pad epoch : num a) (size : nat) : list Z :=
  let dq_data := filled_uint32 size dq_vector_good in
  let dt_ts_times := rounded_sample_times rounded_dq_dt epoch (length dq_data) in
  foldl (rounded_dq_flag dt_ts_times dq_bad_pad (dq_bad dq_vector_good))
        dq_data dq_bad_times.

(** One turn of the loop over [args.idq_bad_times]: [+= 6]. *)
Definition rounded_idq_bump (idq_ts_times : list (num a)) (idq_bad_pad : num a)
           (idq_ts : list (num a)) (idqt : num a) : list (num a) :=
  let fnz := flatnonzero (rounded_epoch_mask idq_ts_times idqt idq_bad_pad) in
  override (fun x => num_add a x (num_of_nat a 6)) fnz idq_ts.

(** The samples of the iDQ channel (lines 187-199); [draws i] is the [i]-th
    variate [rng.standard_normal] returns. *)
Definition rounded_idq_baseline (draws : nat -> num a) (idq_size : nat) : list (num a) :=
  (fun i => num_sub a (draws i) (num_of_nat a 1)) <$> seq 0 idq_size.

Definition rounded_idq_data (draws : nat -> num a) (idq_bad_times : list (num a))
           (idq_bad_pad idq_dt epoch : num a) (idq_size : nat) : list (num a) :=
  let idq_data := rounded_idq_baseline draws idq_size in
  let idq_ts_times := rounded_sample_times idq_dt epoch (length idq_data) in
  foldl (rounded_idq_bump idq_ts_times idq_bad_pad) idq_data idq_bad_times.

(** Rounding is monotone: subtracting the same number keeps the order, and
    the absolute value of a number between two others stays below a bound
    both of them are below. *)
Definition monotone_arith : Prop :=
  (forall x y c : num a,
      num_le a x y = true -> num_le a (num_sub a x c) (num_sub a y c) = true) /\
  (forall x y z p : num a,
      num_le a x y = true -> num_le a y z = true ->
      num_lt a (num_abs a x) p = true -> num_lt a (num_abs a z) p = true ->
      num_lt a (num_abs a y) p = true).

(** The sample times do not decrease with the index. *)
Definition monotone_times (dt epoch : num a) (size : nat) : Prop :=
  forall i j : nat,
    i <= j -> j < size ->
    num_le a (rounded_time dt epoch i) (rounded_time dt epoch j) = true.

End Rounded.

(** Whether index [i] lies in the block [fnz[0] .. fnz[-1]] of a mask. *)
Definition in_block (mask : list bool) (i : nat) : bool :=
  match index_range (flatnonzero mask) with
  | Some (i0, i1) => (i0 <=? i)%nat && (i <=? i1)%nat
  | None => false
  end.

(** A stream of draws for the binary64 examples: every variate is
    [1/3]. *)
Definition example_binary64_draws (i : nat) : PrimFloat.float :=
  PrimFloat.div (binary64_of_nat 1) (binary64_of_nat 3).

(** One half, as a binary64 number. *)
Definition binary64_half : PrimFloat.float :=
  PrimFloat.div (binary64_of_nat 1) (binary64_of_nat 2).

(** * Facts about the primitives *)

Local Close Scope string_scope.

Lemma Qltb_iff (x y : Q) : Qltb x y = true <-> (x < y)%Q.
Proof. unfold Qltb, Qlt. apply Z.ltb_lt. Qed.

Lemma Qltb_false_iff (x y : Q) : Qltb x y = false <-> (y <= x)%Q.
Proof. unfold Qltb, Qle. rewrite Z.ltb_ge. reflexivity. Qed.

Section ArrayFacts.

Lemma elem_of_flatnonzero_from (i k : nat) (mask : list bool) :
  k ∈ flatnonzero_from i mask <->
  i <= k /\ mask !! (k - i) = Some true.
Proof.
  revert i. induction mask as [|b mask IH]; intros i; simpl.
  - rewrite elem_of_nil. split; [tauto|]. intros [_ H]. discriminate.
  - destruct b.
    + rewrite elem_of_cons, IH. split.
      * intros [->|[Hle Hk]].
        -- split; [lia|]. replace (i - i) with 0 by lia. reflexivity.
        -- split; [lia|]. replace (k - i) with (S (k - S i)) by lia. exact Hk.
      * intros [Hle Hk]. destruct (decide (k = i)) as [->|Hne]; [left; reflexivity|].
        right. split; [lia|].
        replace (k - i) with (S (k - S i)) in Hk by lia. exact Hk.
    + rewrite IH. split.
      * intros [Hle Hk]. split; [lia|].
        replace (k - i) with (S (k - S i)) by lia. exact Hk.
      * intros [Hle Hk]. destruct (decide (k = i)) as [->|Hne].
        -- replace (i - i) with 0 in Hk by lia. discriminate.
        -- split; [lia|]. replace (k - i) with (S (k - S i)) in Hk by lia. exact Hk.
Qed.

Lemma elem_of_flatnonzero (k : nat) (mask : list bool) :
  k ∈ flatnonzero mask <-> mask !! k = Some true.
Proof.
  unfold flatnonzero. rewrite elem_of_flatnonzero_from.
  replace (k - 0) with k by lia. split; [tauto|]. intros H; split; [lia|exact H].
Qed.

(** The head of [flatnonzero_from] is a lower bound of its elements. *)
Lemma flatnonzero_from_head_le (i i0 k : nat) (mask : list bool) (rest : list nat) :
  flatnonzero_from i mask = i0 :: rest -> k ∈ i0 :: rest -> i0 <= k.
Proof.
  revert i i0 rest. induction mask as [|b mask IH]; intros i i0 rest; simpl.
  - discriminate.
  - destruct b.
    + intros Heq Hk. injection Heq as <- <-.
      apply elem_of_cons in Hk as [->|Hk]; [lia|].
      apply elem_of_flatnonzero_from in Hk. lia.
    + intros Heq Hk. eapply IH; eassumption.
Qed.

(** The last element of [flatnonzero_from] is an upper bound. *)
Lemma flatnonzero_from_le_last (i k d : nat) (mask : list bool) :
  k ∈ flatnonzero_from i mask -> k <= default d (last (flatnonzero_from i mask)).
Proof.
  revert i. induction mask as [|b mask IH]; intros i; simpl.
  - intros H. apply elem_of_nil in H. contradiction.
  - destruct b; [|apply IH].
    intros Hk. rewrite last_cons.
    destruct (last (flatnonzero_from (S i) mask)) as [j|] eqn:Hl.
    + apply elem_of_cons in Hk as [->|Hk].
      * simpl. apply last_Some_elem_of in Hl.
        apply elem_of_flatnonzero_from in Hl. lia.
      * specialize (IH (S i) Hk). rewrite Hl in IH. exact IH.
    + apply last_None in Hl. rewrite Hl in Hk.
      apply elem_of_cons in Hk as [->|Hk]; [simpl; lia|].
      apply elem_of_nil in Hk. contradiction.
Qed.

Lemma last_elem_of_default (l : list nat) (x : nat) :
  default x (last (x :: l)) ∈ x :: l.
Proof.
  destruct (last (x :: l)) as [y|] eqn:Hl; simpl.
  - apply last_Some_elem_of. exact Hl.
  - apply last_None in Hl. discriminate.
Qed.

Lemma length_slice_update {A : Type} (f : A -> A) (i0 stop : nat) (a : list A) :
  length (slice_update f i0 stop a) = length a.
Proof.
  unfold slice_update.
  rewrite !length_app, length_fmap, !length_take, !length_drop. lia.
Qed.

(** Pointwise reading of the block update. *)
Lemma lookup_slice_update {A : Type} (f : A -> A) (i0 stop i : nat) (a : list A) :
  slice_update f i0 stop a !! i =
  if decide (i0 <= i < stop) then f <$> a !! i else a !! i.
Proof.
  unfold slice_update.
  destruct (decide (i < i0)) as [Hlt|Hge].
  - rewrite decide_False by lia.
    destruct (decide (i < length a)) as [Hin|Hout].
    + rewrite lookup_app_l by (rewrite length_take; lia).
      apply lookup_take_lt. exact Hlt.
    + rewrite !(lookup_ge_None_2 a) by lia.
      apply lookup_ge_None_2.
      rewrite !length_app, length_fmap, !length_take, !length_drop. lia.
  - destruct (decide (length a <= i)) as [Hout|Hin].
    + rewrite (lookup_ge_None_2 a i) by lia.
      replace (f <$> None) with (@None A) by reflexivity.
      rewrite (proj2 (lookup_ge_None _ _)).
      * destruct (decide (i0 <= i < stop)); reflexivity.
      * rewrite !length_app, length_fmap, !length_take, !length_drop. lia.
    + rewrite lookup_app_r by (rewrite length_take; lia).
      rewrite length_take. replace (i0 `min` length a) with i0 by lia.
      destruct (decide (i0 <= i < stop)) as [Hmid|Hnot].
      * rewrite lookup_app_l
          by (rewrite length_fmap, length_take, length_drop; lia).
        rewrite list_lookup_fmap, lookup_take_lt by lia.
        rewrite lookup_drop. replace (i0 + (i - i0)) with i by lia. reflexivity.
      * rewrite lookup_app_r
          by (rewrite length_fmap, length_take, length_drop; lia).
        rewrite length_fmap, length_take, length_drop, lookup_drop.
        f_equal. lia.
Qed.

End ArrayFacts.

Section MaskFacts.

Lemma in_segment_iff (start stop t : Q) :
  Qle_bool start t && Qltb t stop = true <-> (start <= t)%Q /\ (t < stop)%Q.
Proof. rewrite andb_true_iff, Qle_bool_iff, Qltb_iff. reflexivity. Qed.

Lemma in_epoch_iff (center pad t : Q) :
  Qltb (Qabs (t - center)) pad = true <-> (center - pad < t)%Q /\ (t < center + pad)%Q.
Proof.
  rewrite Qltb_iff, Qabs_Qlt_condition. split; intros [H1 H2]; split; lra.
Qed.

Lemma segment_pred_convex (start stop : Q) :
  convex_pred (fun t => Qle_bool start t && Qltb t stop).
Proof.
  intros x y z Hxy Hyz Hx Hz.
  apply in_segment_iff in Hx as [Hx1 _]. apply in_segment_iff in Hz as [_ Hz2].
  apply in_segment_iff. split.
  - eapply Qle_trans; eassumption.
  - eapply Qle_lt_trans; eassumption.
Qed.

Lemma epoch_pred_convex (center pad : Q) :
  convex_pred (fun t => Qltb (Qabs (t - center)) pad).
Proof.
  intros x y z Hxy Hyz Hx Hz.
  apply in_epoch_iff in Hx as [Hx1 _]. apply in_epoch_iff in Hz as [_ Hz2].
  apply in_epoch_iff. split.
  - eapply Qlt_le_trans; eassumption.
  - eapply Qle_lt_trans; eassumption.
Qed.

(** Sample times are monotone in the index, upward or downward with the
    sign of the spacing. *)
Lemma sample_time_mono_up (dt epoch : Q) (i j : nat) :
  (0 <= dt)%Q -> i <= j -> (sample_time dt epoch i <= sample_time dt epoch j)%Q.
Proof.
  intros Hdt Hij. unfold sample_time.
  apply Qplus_le_l. apply Qmult_le_compat_r; [|exact Hdt].
  rewrite <- Zle_Qle. lia.
Qed.

Lemma sample_time_mono_down (dt epoch : Q) (i j : nat) :
  (dt <= 0)%Q -> i <= j -> (sample_time dt epoch j <= sample_time dt epoch i)%Q.
Proof.
  intros Hdt Hij. unfold sample_time.
  assert (H : (inject_Z (Z.of_nat i) <= inject_Z (Z.of_nat j))%Q)
    by (rewrite <- Zle_Qle; lia).
  nra.
Qed.

Lemma sample_time_strict (dt epoch : Q) (i j : nat) :
  (0 < dt)%Q -> i < j -> (sample_time dt epoch i < sample_time dt epoch j)%Q.
Proof.
  intros Hdt Hij. unfold sample_time.
  apply Qplus_lt_l. apply Qmult_lt_compat_r; [exact Hdt|].
  rewrite <- Zlt_Qlt. lia.
Qed.

Lemma lookup_times (dt epoch : Q) (n i : nat) :
  (sample_time dt epoch <$> seq 0 n) !! i =
  if decide (i < n) then Some (sample_time dt epoch i) else None.
Proof.
  rewrite list_lookup_fmap. destruct (decide (i < n)) as [Hlt|Hge].
  - rewrite lookup_seq_lt by exact Hlt. reflexivity.
  - rewrite lookup_seq_ge by lia. reflexivity.
Qed.

Lemma lookup_pred_mask (P : Q -> bool) (dt epoch : Q) (n i : nat) :
  (P <$> (sample_time dt epoch <$> seq 0 n)) !! i = Some true <->
  i < n /\ P (sample_time dt epoch i) = true.
Proof.
  rewrite list_lookup_fmap, lookup_times.
  destruct (decide (i < n)) as [Hlt|Hge]; simpl.
  - split; [intros [= H]; auto|intros [_ H]; rewrite H; reflexivity].
  - split; [discriminate|intros [H _]; lia].
Qed.

(** A convex predicate read along uniformly spaced times gives a convex
    mask, whatever the sign of the spacing. *)
Lemma convex_pred_mask (P : Q -> bool) (dt epoch : Q) (n : nat) :
  convex_pred P -> convex_mask (P <$> (sample_time dt epoch <$> seq 0 n)).
Proof.
  intros HP i j k [Hij Hjk] Hi Hk.
  apply lookup_pred_mask in Hi as [Hin Hi].
  apply lookup_pred_mask in Hk as [Hkn Hk].
  apply lookup_pred_mask. split; [lia|].
  destruct (Qlt_le_dec dt 0) as [Hneg|Hpos].
  - apply (HP (sample_time dt epoch k) _ (sample_time dt epoch i)); auto;
      apply sample_time_mono_down; auto using Qlt_le_weak.
  - apply (HP (sample_time dt epoch i) _ (sample_time dt epoch k)); auto;
      apply sample_time_mono_up; auto.
Qed.

(** On a convex mask the guarded block assignment updates exactly the
    entries the mask selects. *)
Lemma lookup_override_convex {A : Type} (f : A -> A) (mask : list bool)
      (ts : list A) (i : nat) :
  convex_mask mask ->
  override f (flatnonzero mask) ts !! i =
  if decide (mask !! i = Some true) then f <$> ts !! i else ts !! i.
Proof.
  intros Hcv. unfold override, index_range.
  destruct (flatnonzero mask) as [|i0 rest] eqn:Hfnz.
  - rewrite decide_False; [reflexivity|].
    intros Hi. apply elem_of_flatnonzero in Hi. rewrite Hfnz in Hi.
    apply elem_of_nil in Hi. exact Hi.
  - rewrite lookup_slice_update.
    assert (H0 : mask !! i0 = Some true).
    { apply elem_of_flatnonzero. rewrite Hfnz. left. }
    assert (H1 : mask !! default i0 (last (i0 :: rest)) = Some true).
    { apply elem_of_flatnonzero. rewrite Hfnz. apply last_elem_of_default. }
    destruct (decide (i0 <= i < S (default i0 (last (i0 :: rest))))) as [Hin|Hout].
    + rewrite decide_True; [reflexivity|].
      apply (Hcv i0 i (default i0 (last (i0 :: rest)))); [lia|exact H0|exact H1].
    + rewrite decide_False; [reflexivity|].
      intros Hi. apply Hout. apply elem_of_flatnonzero in Hi.
      split.
      * eapply (flatnonzero_from_head_le 0); [exact Hfnz|].
        rewrite <- Hfnz. exact Hi.
      * pose proof (flatnonzero_from_le_last 0 i i0 mask Hi) as Hle.
        fold (flatnonzero mask) in Hle. rewrite Hfnz in Hle. lia.
Qed.

End MaskFacts.

(** * Facts about the overrides *)

Lemma index_range_None (mask : list bool) :
  index_range (flatnonzero mask) = None <-> forall k, mask !! k <> Some true.
Proof.
  unfold index_range. destruct (flatnonzero mask) as [|i0 rest] eqn:Hfnz.
  - split; [|reflexivity]. intros _ k Hk.
    apply elem_of_flatnonzero in Hk. rewrite Hfnz in Hk.
    apply elem_of_nil in Hk. exact Hk.
  - split; [discriminate|]. intros Hno. exfalso. apply (Hno i0).
    apply elem_of_flatnonzero. rewrite Hfnz. left.
Qed.

Lemma index_range_Some (mask : list bool) (i0 i1 : nat) :
  index_range (flatnonzero mask) = Some (i0, i1) ->
  mask !! i0 = Some true /\ mask !! i1 = Some true /\
  forall k, mask !! k = Some true -> i0 <= k <= i1.
Proof.
  unfold index_range. destruct (flatnonzero mask) as [|j rest] eqn:Hfnz; [discriminate|].
  intros [= <- <-]. split; [|split].
  - apply elem_of_flatnonzero. rewrite Hfnz. left.
  - apply elem_of_flatnonzero. rewrite Hfnz. apply last_elem_of_default.
  - intros k Hk. apply elem_of_flatnonzero in Hk. split.
    + eapply (flatnonzero_from_head_le 0); [exact Hfnz|]. rewrite <- Hfnz. exact Hk.
    + pose proof (flatnonzero_from_le_last 0 k j mask Hk) as Hle.
      fold (flatnonzero mask) in Hle. rewrite Hfnz in Hle. exact Hle.
Qed.

Lemma length_override {A : Type} (f : A -> A) (fnz : list nat) (ts : list A) :
  length (override f fnz ts) = length ts.
Proof.
  unfold override. destruct (index_range fnz) as [[i0 i1]|]; [|reflexivity].
  apply length_slice_update.
Qed.

(** The block assignment computed from any mask has the frame of its block. *)
Lemma override_frame {A : Type} (f : A -> A) (mask : list bool) :
  frame_of_block f mask (override f (flatnonzero mask)).
Proof.
  intros d. split; [apply length_override|]. split.
  - intros Hno. unfold override.
    rewrite (proj2 (index_range_None mask) Hno). reflexivity.
  - intros i0 i1 Hr. destruct (index_range_Some mask i0 i1 Hr) as (H0 & H1 & Hb).
    repeat split; auto; try (apply Hb; assumption).
    + intros i Hout. unfold override. rewrite Hr, lookup_slice_update.
      rewrite decide_False by lia. reflexivity.
    + intros i Hin. unfold override. rewrite Hr, lookup_slice_update.
      rewrite decide_True by lia. reflexivity.
Qed.

Lemma state_off_unfold (times : list Q) (d : list Z) (ss : Q * Q) :
  state_off times d ss =
  override (fun _ => 0%Z) (flatnonzero (segment_mask times (fst ss) (snd ss))) d.
Proof. destruct ss as [start end_]. reflexivity. Qed.

Lemma segment_mask_convex (dt epoch : Q) (n : nat) (start stop : Q) :
  convex_mask (segment_mask (sample_time dt epoch <$> seq 0 n) start stop).
Proof. apply convex_pred_mask, segment_pred_convex. Qed.

Lemma epoch_mask_convex (dt epoch : Q) (n : nat) (center pad : Q) :
  convex_mask (epoch_mask (sample_time dt epoch <$> seq 0 n) center pad).
Proof. apply convex_pred_mask, epoch_pred_convex. Qed.

(** A loop of block assignments over convex masks applies [f] to sample [i]
    once per mask that selects it. *)
Lemma lookup_foldl_override {A B : Type} (f : A -> A) (mk : B -> list bool)
      (step : list A -> B -> list A) (xs : list B) (d : list A) (i : nat) :
  (forall d x, step d x = override f (flatnonzero (mk x)) d) ->
  (forall x, convex_mask (mk x)) ->
  foldl step d xs !! i =
  Nat.iter (count_hits (fun x => bool_decide (mk x !! i = Some true)) xs) f <$> d !! i.
Proof.
  intros Hstep Hcv. revert d. induction xs as [|x xs IH]; intros d; simpl.
  - destruct (d !! i); reflexivity.
  - rewrite IH, Hstep, lookup_override_convex by apply Hcv.
    unfold count_hits. simpl.
    destruct (decide (mk x !! i = Some true)) as [Hhit|Hmiss].
    + rewrite bool_decide_eq_true_2 by exact Hhit. simpl.
      destruct (d !! i) as [y|]; simpl; [|reflexivity].
      rewrite <- Nat.iter_succ_r. reflexivity.
    + rewrite bool_decide_eq_false_2 by exact Hmiss. reflexivity.
Qed.

Lemma count_hits_ext {B : Type} (P P' : B -> bool) (xs : list B) :
  (forall x, P x = P' x) -> count_hits P xs = count_hits P' xs.
Proof.
  intros Hext. unfold count_hits. induction xs as [|x xs IH]; simpl; [reflexivity|].
  rewrite Hext. destruct (P' x); simpl; rewrite IH; reflexivity.
Qed.

Lemma count_hits_0 {B : Type} (P : B -> bool) (xs : list B) :
  count_hits P xs = 0 <-> existsb P xs = false.
Proof.
  unfold count_hits. induction xs as [|x xs IH]; simpl; [tauto|].
  destruct (P x); simpl; [split; discriminate|exact IH].
Qed.

Lemma iter_const {A : Type} (k : nat) (v x : A) :
  Nat.iter k (fun _ => v) x = if (k =? 0)%nat then x else v.
Proof. destruct k; reflexivity. Qed.

Lemma iter_plus6 (k : nat) (x : Q) :
  (Nat.iter k (fun y => y + 6) x == x + 6 * inject_Z (Z.of_nat k))%Q.
Proof.
  induction k as [|k IH].
  - simpl. ring.
  - rewrite Nat.iter_succ, IH, Nat2Z.inj_succ. unfold Z.succ. rewrite inject_Z_plus. ring.
Qed.

Lemma filled_uint32_eq (n : nat) (good : Z) :
  filled_uint32 n good = replicate n (uint32 good).
Proof.
  unfold filled_uint32. apply list_eq. intros i.
  rewrite lookup_slice_update, length_replicate.
  destruct (decide (0 <= i < n)) as [Hin|Hout].
  - rewrite !lookup_replicate_2 by lia. reflexivity.
  - assert (Hge : n <= i) by lia.
    rewrite (proj1 (lookup_replicate_None n 0%Z i) Hge).
    rewrite (proj1 (lookup_replicate_None n (uint32 good) i) Hge). reflexivity.
Qed.

Lemma lookup_filled_uint32 (n : nat) (good : Z) (i : nat) :
  filled_uint32 n good !! i = if decide (i < n) then Some (uint32 good) else None.
Proof.
  rewrite filled_uint32_eq. destruct (decide (i < n)).
  - apply lookup_replicate_2. assumption.
  - apply lookup_replicate_None. lia.
Qed.

Lemma length_filled_uint32 (n : nat) (good : Z) : length (filled_uint32 n good) = n.
Proof. rewrite filled_uint32_eq. apply length_replicate. Qed.

(** Whether the mask of a predicate selects sample [i] of [n]. *)
Lemma mask_hit (P : Q -> bool) (dt epoch : Q) (n i : nat) :
  i < n ->
  bool_decide ((P <$> (sample_time dt epoch <$> seq 0 n)) !! i = Some true) =
  P (sample_time dt epoch i).
Proof.
  intros Hi. destruct (P (sample_time dt epoch i)) eqn:HP.
  - apply bool_decide_eq_true_2. apply lookup_pred_mask. auto.
  - apply bool_decide_eq_false_2. intros H. apply lookup_pred_mask in H as [_ H].
    congruence.
Qed.

(** * The interval-to-index mapping *)

Lemma time_index_mask {A : Type} (ts : TimeSeries A) (t0 t1 : Q) (i : nat) :
  segment_mask (sample_times ts) t0 t1 !! i = Some true <->
  i < length (data ts) /\
  (t0 <= sample_time (delta_t ts) (start_time ts) i)%Q /\
  (sample_time (delta_t ts) (start_time ts) i < t1)%Q.
Proof.
  unfold segment_mask, sample_times. rewrite lookup_pred_mask, in_segment_iff.
  reflexivity.
Qed.

(** C1. For every uniformly sampled series and every interval [[t0, t1)], the
    mapping returns no range exactly when no sample time lies in the
    interval; a range it returns lies inside the series, contains exactly the
    indices of the samples whose time [start_time + i * delta_t] lies in
    [[t0, t1)], and is the smallest range containing them. With a positive
    spacing, an interval that ends at or before the first sample, or starts
    at or after the end of the span, gives no range (the mapping is a total
    function: it has no error case), and an interval covering the whole span
    gives the full range. *)
Theorem time_index_range_exact :
  forall (A : Type) (ts : TimeSeries A) (t0 t1 : Q),
    let n := length (data ts) in
    let t := sample_time (delta_t ts) (start_time ts) in
    let qualifies := fun i : nat => i < n /\ (t0 <= t i)%Q /\ (t i < t1)%Q in
    (time_index_range ts t0 t1 = None <-> forall i, ~ qualifies i) /\
    (forall i0 i1,
        time_index_range ts t0 t1 = Some (i0, i1) ->
        i0 <= i1 < n /\
        (forall i, i0 <= i <= i1 <-> qualifies i) /\
        (forall a b, (forall i, qualifies i -> a <= i <= b) -> a <= i0 /\ i1 <= b)) /\
    ((0 < delta_t ts)%Q ->
     (t1 <= start_time ts)%Q \/
     (start_time ts + inject_Z (Z.of_nat n) * delta_t ts <= t0)%Q ->
     time_index_range ts t0 t1 = None) /\
    ((0 < delta_t ts)%Q -> 0 < n ->
     (t0 <= start_time ts)%Q ->
     (start_time ts + inject_Z (Z.of_nat n) * delta_t ts <= t1)%Q ->
     time_index_range ts t0 t1 = Some (0, n - 1)).
Proof.
  intros A ts t0 t1 n t qualifies.
  assert (Hq : forall i, segment_mask (sample_times ts) t0 t1 !! i = Some true <->
                         qualifies i) by (intros i; apply time_index_mask).
  assert (Hnone : time_index_range ts t0 t1 = None <-> forall i, ~ qualifies i).
  { unfold time_index_range. rewrite index_range_None.
    split; intros H i Hi; apply (H i); apply Hq; exact Hi. }
  assert (Hsome : forall i0 i1,
             time_index_range ts t0 t1 = Some (i0, i1) ->
             qualifies i0 /\ qualifies i1 /\
             (forall i, i0 <= i <= i1 <-> qualifies i)).
  { intros i0 i1 Hr. unfold time_index_range in Hr.
    destruct (index_range_Some _ i0 i1 Hr) as (H0 & H1 & Hb).
    split; [apply Hq, H0|]. split; [apply Hq, H1|].
    intros i. split.
    - intros Hin. apply Hq.
      apply (segment_mask_convex (delta_t ts) (start_time ts) n t0 t1 i0 i i1);
        [exact Hin|exact H0|exact H1].
    - intros Hi. apply Hb, Hq, Hi. }
  assert (Hlast : forall i, i < n ->
             (t i < start_time ts + inject_Z (Z.of_nat n) * delta_t ts)%Q \/
             ~ (0 < delta_t ts)%Q).
  { intros i Hi. destruct (Qlt_le_dec 0 (delta_t ts)) as [Hpos|Hneg].
    - left. unfold t, sample_time.
      assert (Hlt : (inject_Z (Z.of_nat i) < inject_Z (Z.of_nat n))%Q)
        by (rewrite <- Zlt_Qlt; lia).
      nra.
    - right. lra. }
  assert (Hfirst : forall i, (0 < delta_t ts)%Q -> (start_time ts <= t i)%Q).
  { intros i Hpos. unfold t, sample_time.
    assert (Hge : (0 <= inject_Z (Z.of_nat i))%Q)
      by (replace 0%Q with (inject_Z 0) by reflexivity; rewrite <- Zle_Qle; lia).
    nra. }
  split; [exact Hnone|]. split; [|split].
  - intros i0 i1 Hr. destruct (Hsome i0 i1 Hr) as (H0 & H1 & Hiff).
    split; [|split].
    + split; [|apply H1]. apply (proj2 (Hiff i0)) in H0 as H0'. 
      apply (proj2 (Hiff i1)) in H1 as H1'. lia.
    + exact Hiff.
    + intros a b Hab. pose proof (Hab i0 H0). pose proof (Hab i1 H1). lia.
  - intros Hpos Hout. apply Hnone. intros i (Hi & Hlo & Hhi).
    destruct Hout as [Hbefore|Hafter].
    + pose proof (Hfirst i Hpos). lra.
    + destruct (Hlast i Hi) as [Hlt|Hno]; [lra|contradiction].
  - intros Hpos Hn Hlo Hhi.
    assert (Hall : forall i, i < n -> qualifies i).
    { intros i Hi. split; [exact Hi|]. pose proof (Hfirst i Hpos).
      destruct (Hlast i Hi) as [Hlt|Hno]; [|contradiction]. split; lra. }
    destruct (time_index_range ts t0 t1) as [[i0 i1]|] eqn:Hr.
    + destruct (Hsome i0 i1 eq_refl) as (H0 & H1 & Hiff).
      pose proof (proj2 (Hiff 0) (Hall 0 Hn)).
      assert (Hn1 : n - 1 < n) by lia.
      pose proof (proj2 (Hiff (n - 1)) (Hall (n - 1) Hn1)).
      destruct H1 as [H1 _]. f_equal. f_equal; lia.
    + exfalso. apply (proj1 Hnone eq_refl 0). apply Hall. exact Hn.
Qed.

(** * The frame of the overrides *)


(** * The three channels, sample by sample *)

Lemma count_hits_mask {B : Type} (P : B -> Q -> bool) (dt epoch : Q) (n i : nat)
      (xs : list B) :
  i < n ->
  count_hits (fun x => bool_decide
                ((P x <$> (sample_time dt epoch <$> seq 0 n)) !! i = Some true)) xs =
  count_hits (fun x => P x (sample_time dt epoch i)) xs.
Proof. intros Hi. apply count_hits_ext. intros x. apply mask_hit. exact Hi. Qed.

Lemma lookup_state_vector (good : Z) (segs : list (Q * Q)) (epoch : Q) (n i : nat) :
  data (state_vector_ts good segs epoch n) !! i =
  if decide (i < n)
  then Some (if existsb (in_segment (sample_time state_dt epoch i)) segs
             then 0%Z else uint32 good)
  else None.
Proof.
  unfold state_vector_ts, sample_times. simpl. rewrite length_filled_uint32.
  rewrite (lookup_foldl_override (fun _ => 0%Z)
             (fun ss => segment_mask (sample_time state_dt epoch <$> seq 0 n)
                                     (fst ss) (snd ss))).
  - rewrite lookup_filled_uint32. destruct (decide (i < n)) as [Hi|Hi]; [|reflexivity].
    simpl. unfold segment_mask.
    rewrite (count_hits_mask (fun ss t => Qle_bool (fst ss) t && Qltb t (snd ss))) by exact Hi.
    rewrite iter_const. f_equal.
    destruct (existsb (in_segment (sample_time state_dt epoch i)) segs) eqn:Hex.
    + destruct (Nat.eqb_spec
                  (count_hits (fun ss => Qle_bool (fst ss) (sample_time state_dt epoch i)
                                         && Qltb (sample_time state_dt epoch i) (snd ss)) segs)
                  0) as [H0|H0]; [|reflexivity].
      apply count_hits_0 in H0. unfold in_segment in Hex. congruence.
    + apply count_hits_0 in Hex. unfold in_segment in Hex. rewrite Hex. reflexivity.
  - intros d ss. apply state_off_unfold.
  - intros ss. apply segment_mask_convex.
Qed.

Lemma lookup_dq_vector (good : Z) (bad_times : list Q) (pad epoch : Q) (n i : nat) :
  data (dq_vector_ts good bad_times pad epoch n) !! i =
  if decide (i < n)
  then Some (if existsb (in_epoch pad (sample_time dq_dt epoch i)) bad_times
             then dq_bad good else uint32 good)
  else None.
Proof.
  unfold dq_vector_ts, sample_times. simpl. rewrite length_filled_uint32.
  rewrite (lookup_foldl_override (fun _ => dq_bad good)
             (fun dqt => epoch_mask (sample_time dq_dt epoch <$> seq 0 n) dqt pad)).
  - rewrite lookup_filled_uint32. destruct (decide (i < n)) as [Hi|Hi]; [|reflexivity].
    simpl. unfold epoch_mask.
    rewrite (count_hits_mask (fun dqt t => Qltb (Qabs (t - dqt)) pad)) by exact Hi.
    rewrite iter_const. f_equal.
    destruct (existsb (in_epoch pad (sample_time dq_dt epoch i)) bad_times) eqn:Hex.
    + destruct (Nat.eqb_spec
                  (count_hits (fun dqt => Qltb (Qabs (sample_time dq_dt epoch i - dqt)) pad)
                              bad_times) 0) as [H0|H0]; [|reflexivity].
      apply count_hits_0 in H0. unfold in_epoch in Hex. congruence.
    + apply count_hits_0 in Hex. unfold in_epoch in Hex. rewrite Hex. reflexivity.
  - intros d dqt. reflexivity.
  - intros dqt. apply epoch_mask_convex.
Qed.

Lemma lookup_idq_baseline (normal_draw : Z -> nat -> Q) (seed : option Z)
      (entropy : Z) (n i : nat) :
  idq_baseline normal_draw seed entropy n !! i =
  if decide (i < n) then Some (normal_draw (default_rng seed entropy) i - 1)%Q else None.
Proof.
  unfold idq_baseline, standard_normal. rewrite !list_lookup_fmap.
  destruct (decide (i < n)) as [Hi|Hi].
  - rewrite lookup_seq_lt by exact Hi. reflexivity.
  - rewrite lookup_seq_ge by lia. reflexivity.
Qed.

Lemma length_idq_baseline (normal_draw : Z -> nat -> Q) (seed : option Z)
      (entropy : Z) (n : nat) :
  length (idq_baseline normal_draw seed entropy n) = n.
Proof. unfold idq_baseline, standard_normal. rewrite !length_fmap. apply length_seq. Qed.

Lemma lookup_idq_channel (normal_draw : Z -> nat -> Q) (seed : option Z) (entropy : Z)
      (bad_times : list Q) (pad dt epoch : Q) (n i : nat) :
  data (idq_channel_ts normal_draw seed entropy bad_times pad dt epoch n) !! i =
  if decide (i < n)
  then Some (Nat.iter (count_hits (in_epoch pad (sample_time dt epoch i)) bad_times)
                      (fun x => x + 6)%Q
                      (normal_draw (default_rng seed entropy) i - 1)%Q)
  else None.
Proof.
  unfold idq_channel_ts, sample_times. simpl. rewrite length_idq_baseline.
  rewrite (lookup_foldl_override (fun x => (x + 6)%Q)
             (fun idqt => epoch_mask (sample_time dt epoch <$> seq 0 n) idqt pad)).
  - rewrite lookup_idq_baseline. destruct (decide (i < n)) as [Hi|Hi]; [|reflexivity].
    simpl. unfold epoch_mask.
    rewrite (count_hits_mask (fun idqt t => Qltb (Qabs (t - idqt)) pad)) by exact Hi.
    reflexivity.
  - intros d idqt. reflexivity.
  - intros idqt. apply epoch_mask_convex.
Qed.

Lemma length_data_lookup {A : Type} (l : list A) (n : nat) (g : nat -> A) :
  (forall i, l !! i = if decide (i < n) then Some (g i) else None) -> length l = n.
Proof.
  intros H. destruct (Nat.lt_trichotomy (length l) n) as [Hlt|[Heq|Hgt]]; [|exact Heq|].
  - specialize (H (length l)). rewrite decide_True in H by exact Hlt.
    rewrite lookup_ge_None_2 in H by lia. discriminate.
  - specialize (H n). rewrite decide_False in H by lia.
    apply lookup_ge_None in H. lia.
Qed.

Lemma py_int_inject (q : Q) (z : Z) : (q == inject_Z z)%Q -> py_int q = z.
Proof.
  unfold Qeq, py_int. destruct q as [a b]. simpl. intros H.
  rewrite Z.mul_1_r in H. subst a. apply Z.quot_mul. discriminate.
Qed.

(** A computation that returns at once hands its value on. *)
Lemma bind_ret {A B : Type} (x : A) (k : A -> M B) : bind ([], inr x) k = k x.
Proof. unfold bind. destruct (k x) as [tr r]. reflexivity. Qed.

(** * State vector *)

Lemma in_segment_spec (t : Q) (ss : Q * Q) :
  in_segment t ss = true <-> (fst ss <= t)%Q /\ (t < snd ss)%Q.
Proof. unfold in_segment. apply in_segment_iff. Qed.

Lemma in_epoch_spec (pad t c : Q) :
  in_epoch pad t c = true <-> (c - pad < t)%Q /\ (t < c + pad)%Q.
Proof. unfold in_epoch. apply in_epoch_iff. Qed.

Lemma state_vector_ts_ext (good : Z) (segs segs' : list (Q * Q)) (epoch : Q) (n : nat) :
  (forall t, existsb (in_segment t) segs = existsb (in_segment t) segs') ->
  state_vector_ts good segs epoch n = state_vector_ts good segs' epoch n.
Proof.
  intros Hext.
  assert (Hd : data (state_vector_ts good segs epoch n) =
               data (state_vector_ts good segs' epoch n)).
  { apply list_eq. intros i. rewrite !lookup_state_vector, Hext. reflexivity. }
  unfold state_vector_ts in *. simpl in Hd. rewrite Hd. reflexivity.
Qed.

Lemma py_int_floor (q : Q) : (0 <= q)%Q -> py_int q = Qfloor q.
Proof.
  destruct q as [a b]. unfold Qle, py_int, Qfloor. simpl. intros Ha.
  apply Z.quot_div_nonneg; lia.
Qed.

Lemma add_state_vector_given (args : Args) (strain : TimeSeries Q) (name : string)
      (good : Z) (segs : list (Q * Q)) :
  state_vector args = Some name ->
  state_vector_good args = Some good ->
  state_off_segments args = Some segs ->
  (1 <= state_size strain)%Z ->
  add_state_vector args strain =
  ret [(name, UInt32Series (state_vector_ts good segs (start_time strain)
                                            (Z.to_nat (state_size strain))))].
Proof.
  intros Hname Hgood Hsegs Hsize. unfold add_state_vector, np_zeros_size, TimeSeries_check.
  rewrite Hname, Hgood, Hsegs.
  rewrite (proj2 (Z.ltb_ge (state_size strain) 0)) by lia.
  unfold ret at 1. rewrite bind_ret. unfold required, ret at 1. rewrite bind_ret.
  rewrite (proj2 (Nat.ltb_ge (Z.to_nat (state_size strain)) 1)) by lia.
  reflexivity.
Qed.

(** C3. The state vector has spacing 1/16 s and the strain's start time;
    sample [i] of its [n] samples is 0 when its time lies in one of the off
    segments [[start, end)] and the configured good value otherwise. For a
    strain of 10 s it has 160 samples, and with good value 2, start time 0
    and the one off segment [[3, 5)] samples 48 to 79 (times 3 to 4.9375) are
    0 and all the others are 2. The script builds it with
    [floor(strain.duration / (1/16))] samples. Applying off segments again, or segments
    that overlap earlier ones, changes nothing that was already overridden:
    a sample that is 0 stays 0. *)
Theorem state_vector_off_segments :
  (forall (good : Z) (segs : list (Q * Q)) (epoch : Q) (n : nat),
      delta_t (state_vector_ts good segs epoch n) = (1 # 16)%Q /\
      start_time (state_vector_ts good segs epoch n) = epoch /\
      length (data (state_vector_ts good segs epoch n)) = n /\
      forall i, i < n ->
        let t := sample_time state_dt epoch i in
        ((exists ss, ss ∈ segs /\ (fst ss <= t)%Q /\ (t < snd ss)%Q) ->
         data (state_vector_ts good segs epoch n) !! i = Some 0%Z) /\
        ((forall ss, ss ∈ segs -> ~ ((fst ss <= t)%Q /\ (t < snd ss)%Q)) ->
         data (state_vector_ts good segs epoch n) !! i = Some (uint32 good))) /\
  (forall (A : Type) (strain : TimeSeries A),
      (0 <= duration strain)%Q ->
      state_size strain = Qfloor (duration strain / state_dt)) /\
  (forall (args : Args) (strain : TimeSeries Q) (name : string) (good : Z)
          (segs : list (Q * Q)),
      state_vector args = Some name ->
      state_vector_good args = Some good ->
      state_off_segments args = Some segs ->
      (1 <= state_size strain)%Z ->
      add_state_vector args strain =
      ret [(name, UInt32Series (state_vector_ts good segs (start_time strain)
                                                (Z.to_nat (state_size strain))))]) /\
  (forall (A : Type) (strain : TimeSeries A),
      (duration strain == 10)%Q -> state_size strain = 160%Z) /\
  data (state_vector_ts 2 [(3, 5)%Q] 0 160) =
    replicate 48 2%Z ++ replicate 32 0%Z ++ replicate 80 2%Z /\
  (forall i, i < 160 ->
      let t := sample_time state_dt 0 i in
      ((3 <= t)%Q /\ (t < 5)%Q ->
       data (state_vector_ts 2 [(3, 5)%Q] 0 160) !! i = Some 0%Z) /\
      (~ ((3 <= t)%Q /\ (t < 5)%Q) ->
       data (state_vector_ts 2 [(3, 5)%Q] 0 160) !! i = Some 2%Z)) /\
  (forall (good : Z) (segs more : list (Q * Q)) (epoch : Q) (n : nat),
      (forall ss, ss ∈ more -> ss ∈ segs) ->
      state_vector_ts good (segs ++ more) epoch n = state_vector_ts good segs epoch n) /\
  (forall (good : Z) (segs more : list (Q * Q)) (epoch : Q) (n i : nat),
      data (state_vector_ts good segs epoch n) !! i = Some 0%Z ->
      data (state_vector_ts good (segs ++ more) epoch n) !! i = Some 0%Z).
Proof.
  split; [|split; [|split; [|split; [|split; [|split; [|split]]]]]].
  - intros good segs epoch n. split; [reflexivity|]. split; [reflexivity|]. split.
    + eapply length_data_lookup. intros i. apply lookup_state_vector.
    + intros i Hi t. rewrite lookup_state_vector, decide_True by exact Hi. split.
      * intros (ss & Hin & Hlo & Hhi).
        assert (Hex : existsb (in_segment t) segs = true).
        { apply existsb_exists. exists ss. split.
          - apply list_elem_of_In. exact Hin.
          - apply in_segment_spec. auto. }
        fold t. rewrite Hex. reflexivity.
      * intros Hno. fold t.
        destruct (existsb (in_segment t) segs) eqn:Hex; [|reflexivity].
        apply existsb_exists in Hex as (ss & Hin & Hss). exfalso.
        apply (Hno ss); [apply list_elem_of_In; exact Hin|].
        apply in_segment_spec. exact Hss.
  - intros A strain Hdur. unfold state_size. apply py_int_floor.
    apply Qmult_le_0_compat; [exact Hdur|]. unfold state_dt. vm_compute. discriminate.
  - intros args strain name good segs. apply add_state_vector_given.
  - intros A strain Hdur. unfold state_size. apply py_int_inject.
    rewrite Hdur. reflexivity.
  - vm_compute. reflexivity.
  - intros i Hi t. rewrite lookup_state_vector, decide_True by exact Hi.
    fold t. simpl. rewrite orb_false_r. split.
    + intros Hin. rewrite (proj2 (in_segment_spec t (3, 5)%Q) Hin). reflexivity.
    + intros Hout. destruct (in_segment t (3, 5)%Q) eqn:Hs; [|reflexivity].
      apply in_segment_spec in Hs. contradiction.
  - intros good segs more epoch n Hsub. apply state_vector_ts_ext. intros t.
    rewrite existsb_app.
    destruct (existsb (in_segment t) more) eqn:Hm; [|apply orb_false_r].
    apply existsb_exists in Hm as (ss & Hin & Hss).
    assert (Hex : existsb (in_segment t) segs = true).
    { apply existsb_exists. exists ss. split; [|exact Hss].
      apply list_elem_of_In, Hsub, list_elem_of_In, Hin. }
    rewrite Hex. reflexivity.
  - intros good segs more epoch n i. rewrite !lookup_state_vector.
    destruct (decide (i < n)); [|discriminate].
    rewrite existsb_app.
    destruct (existsb (in_segment (sample_time state_dt epoch i)) segs); simpl.
    + intros _. reflexivity.
    + intros [= Hgood]. rewrite Hgood.
      destruct (existsb _ more); reflexivity.
Qed.

(** * The bad-epoch overrides over a rounding arithmetic *)

Lemma in_block_spec (mask : list bool) (i : nat) :
  in_block mask i = true <->
  exists i0 i1, index_range (flatnonzero mask) = Some (i0, i1) /\ i0 <= i <= i1.
Proof.
  unfold in_block. destruct (index_range (flatnonzero mask)) as [[i0 i1]|].
  - rewrite andb_true_iff, !Nat.leb_le. split.
    + intros H. exists i0, i1. split; [reflexivity|exact H].
    + intros (j0 & j1 & [= <- <-] & H). exact H.
  - split; [discriminate|]. intros (i0 & i1 & H & _). discriminate.
Qed.

(** The guarded block assignment, read pointwise, for any mask. *)
Lemma lookup_override_block {A : Type} (f : A -> A) (mask : list bool)
      (ts : list A) (i : nat) :
  override f (flatnonzero mask) ts !! i =
  if in_block mask i then f <$> ts !! i else ts !! i.
Proof.
  unfold override, in_block.
  destruct (index_range (flatnonzero mask)) as [[i0 i1]|]; [|reflexivity].
  rewrite lookup_slice_update.
  destruct (decide (i0 <= i < S i1)) as [Hin|Hout].
  - rewrite (proj2 (Nat.leb_le i0 i)), (proj2 (Nat.leb_le i i1)) by lia. reflexivity.
  - destruct (Nat.leb_spec i0 i); destruct (Nat.leb_spec i i1); simpl;
      try reflexivity; lia.
Qed.

(** A selected sample lies in the block. *)
Lemma in_block_hit (mask : list bool) (i : nat) :
  mask !! i = Some true -> in_block mask i = true.
Proof.
  intros Hi. apply in_block_spec.
  destruct (index_range (flatnonzero mask)) as [[i0 i1]|] eqn:Hr.
  - exists i0, i1. split; [reflexivity|].
    apply (index_range_Some mask i0 i1 Hr). exact Hi.
  - exfalso. apply (proj1 (index_range_None mask) Hr i Hi).
Qed.

(** On a convex mask the block holds the selected samples only. *)
Lemma in_block_convex (mask : list bool) (i : nat) :
  convex_mask mask -> in_block mask i = true <-> mask !! i = Some true.
Proof.
  intros Hcv. split; [|apply in_block_hit].
  intros H. apply in_block_spec in H as (i0 & i1 & Hr & Hin).
  destruct (index_range_Some mask i0 i1 Hr) as (H0 & H1 & _).
  apply (Hcv i0 i i1); assumption.
Qed.

(** A loop of block assignments applies [f] to sample [i] once per block that
    holds it, for any masks. *)
Lemma lookup_foldl_block {A B : Type} (f : A -> A) (mk : B -> list bool)
      (step : list A -> B -> list A) (xs : list B) (d : list A) (i : nat) :
  (forall d x, step d x = override f (flatnonzero (mk x)) d) ->
  foldl step d xs !! i =
  Nat.iter (count_hits (fun x => in_block (mk x) i) xs) f <$> d !! i.
Proof.
  intros Hstep. revert d. induction xs as [|x xs IH]; intros d; simpl.
  - destruct (d !! i); reflexivity.
  - rewrite IH, Hstep, lookup_override_block. unfold count_hits. simpl.
    destruct (in_block (mk x) i); simpl; [|reflexivity].
    destruct (d !! i) as [y|]; simpl; [|reflexivity].
    rewrite <- Nat.iter_succ_r. reflexivity.
Qed.

Section RoundedFacts.

Variable a : Arith.

Lemma lookup_rounded_mask (dt epoch center pad : num a) (n i : nat) :
  rounded_epoch_mask a (rounded_sample_times a dt epoch n) center pad !! i = Some true <->
  i < n /\
  num_lt a (num_abs a (num_sub a (rounded_time a dt epoch i) center)) pad = true.
Proof.
  unfold rounded_epoch_mask, rounded_sample_times. rewrite !list_lookup_fmap.
  destruct (decide (i < n)) as [Hi|Hi].
  - rewrite lookup_seq_lt by exact Hi. simpl. split.
    + intros [= H]. split; assumption.
    + intros [_ H]. rewrite H. reflexivity.
  - rewrite lookup_seq_ge by lia. simpl. split; [discriminate|]. intros [H _]. lia.
Qed.

(** With monotone rounding and sample times that do not decrease, the test
    selects a run of consecutive samples. *)
Lemma rounded_mask_convex (dt epoch center pad : num a) (n : nat) :
  monotone_arith a -> monotone_times a dt epoch n ->
  convex_mask (rounded_epoch_mask a (rounded_sample_times a dt epoch n) center pad).
Proof.
  intros [Hsub Habs] Htimes i j k [Hij Hjk] Hi Hk.
  apply lookup_rounded_mask in Hi as [Hin Hi].
  apply lookup_rounded_mask in Hk as [Hkn Hk].
  apply lookup_rounded_mask. split; [lia|].
  apply (Habs (num_sub a (rounded_time a dt epoch i) center) _
              (num_sub a (rounded_time a dt epoch k) center)).
  - apply Hsub, Htimes; lia.
  - apply Hsub, Htimes; lia.
  - exact Hi.
  - exact Hk.
Qed.

Lemma length_rounded_idq_baseline (draws : nat -> num a) (n : nat) :
  length (rounded_idq_baseline a draws n) = n.
Proof. unfold rounded_idq_baseline. rewrite length_fmap. apply length_seq. Qed.

Lemma lookup_rounded_idq_baseline (draws : nat -> num a) (n i : nat) :
  rounded_idq_baseline a draws n !! i =
  if decide (i < n) then Some (num_sub a (draws i) (num_of_nat a 1)) else None.
Proof.
  unfold rounded_idq_baseline. rewrite list_lookup_fmap.
  destruct (decide (i < n)) as [Hi|Hi].
  - rewrite lookup_seq_lt by exact Hi. reflexivity.
  - rewrite lookup_seq_ge by lia. reflexivity.
Qed.


Lemma lookup_rounded_idq_data (draws : nat -> num a) (bad_times : list (num a))
      (pad dt epoch : num a) (n i : nat) :
  rounded_idq_data a draws bad_times pad dt epoch n !! i =
  if decide (i < n)
  then Some (Nat.iter
               (count_hits
                  (fun c => in_block
                              (rounded_epoch_mask
                                 a (rounded_sample_times a dt epoch n) c pad) i)
                  bad_times)
               (fun x => num_add a x (num_of_nat a 6))
               (num_sub a (draws i) (num_of_nat a 1)))
  else None.
Proof.
  unfold rounded_idq_data. rewrite length_rounded_idq_baseline.
  rewrite (lookup_foldl_block (fun x => num_add a x (num_of_nat a 6))
             (fun c => rounded_epoch_mask a (rounded_sample_times a dt epoch n) c pad))
    by (intros d c; reflexivity).
  rewrite lookup_rounded_idq_baseline.
  destruct (decide (i < n)); reflexivity.
Qed.

End RoundedFacts.



(** The overrides of the model of the run are those of exact arithmetic. *)
Lemma exact_overrides (times : list Q) (pad : Q) :
  (forall c, epoch_mask times c pad = rounded_epoch_mask exact times c pad) /\
  (forall bad d c, dq_flag times pad bad d c = rounded_dq_flag exact times pad bad d c) /\
  (forall d c, idq_bump times pad d c = rounded_idq_bump exact times pad d c).
Proof. repeat split. Qed.

(** * DQ vector *)


(** The test is the rounded one: in binary64, with start time 0, bad time
    1/10 and pad 49/10, the sample at 5.0 (index 320) keeps the good value,
    because [5.0 - 0.1] rounds to the pad itself. *)
Lemma binary64_dq_rounded_test :
  rounded_dq_data binary64 1
    [PrimFloat.div (binary64_of_nat 1) (binary64_of_nat 10)]
    (PrimFloat.div (binary64_of_nat 49) (binary64_of_nat 10)) PrimFloat.zero 400 !! 320
  = Some 1%Z /\
  rounded_dq_data binary64 1
    [PrimFloat.div (binary64_of_nat 1) (binary64_of_nat 10)]
    (PrimFloat.div (binary64_of_nat 49) (binary64_of_nat 10)) PrimFloat.zero 400 !! 319
  = Some 0%Z.
Proof. split; vm_compute; reflexivity. Qed.


(** * iDQ channel *)

(** C5, as stated, fails in binary64: with every draw equal to 1/3 the
    baseline of sample 0 is [1/3 - 1]; two bad epochs centered at 0 and 1/4
    with pad 1/2 both cover it, and its value [(baseline + 6) + 6] is not the
    binary64 number [baseline + 12] but the one just below it. *)
Lemma binary64_two_bumps_differ_from_plus_12 :
  exists b v : PrimFloat.float,
    rounded_idq_baseline binary64 example_binary64_draws 4 !! 0 = Some b /\
    rounded_idq_data binary64 example_binary64_draws
      [PrimFloat.zero; PrimFloat.div (binary64_of_nat 1) (binary64_of_nat 4)]
      binary64_half (PrimFloat.div (binary64_of_nat 1) (binary64_of_nat 4))
      PrimFloat.zero 4 !! 0 = Some v /\
    PrimFloat.eqb v (PrimFloat.add b (binary64_of_nat 12)) = false /\
    PrimFloat.ltb v (PrimFloat.add b (binary64_of_nat 12)) = true.
Proof.
  eexists. eexists. split; [vm_compute; reflexivity|].
  split; [vm_compute; reflexivity|]. split; vm_compute; reflexivity.
Qed.

(** C5, amended. In whatever arithmetic the channel is computed, binary64
    included, sample [i] of the iDQ channel is its baseline value (the
    [i]-th draw minus 1) to which 6 was added once for every bad epoch whose
    block (first to last sample passing [abs(t - center) < pad] as the code
    computes it) holds the sample: the additions accumulate, each one
    rounded. A sample that passes the test of one epoch is its baseline plus
    6, a sample that passes the tests of two (overlapping or repeated) epochs
    is [(baseline + 6) + 6], which in exact arithmetic is the baseline plus
    12. When rounding is monotone and the sample times do not decrease, the
    blocks hold exactly the samples that pass the test, and a sample that
    passes no test keeps its baseline value. *)
Theorem rounded_idq_bad_epochs_accumulate :
  forall (a : Arith) (draws : nat -> num a) (pad dt epoch : num a) (n : nat),
    let times := rounded_sample_times a dt epoch n in
    let bump := fun x : num a => num_add a x (num_of_nat a 6) in
    let baseline := fun i : nat => num_sub a (draws i) (num_of_nat a 1) in
    let tested := fun (c : num a) (i : nat) =>
      i < n /\
      num_lt a (num_abs a (num_sub a (rounded_time a dt epoch i) c)) pad = true in
    (forall bad_times i,
        rounded_idq_data a draws bad_times pad dt epoch n !! i =
        if decide (i < n)
        then Some (Nat.iter
                     (count_hits (fun c => in_block (rounded_epoch_mask a times c pad) i)
                                 bad_times)
                     bump (baseline i))
        else None) /\
    (forall c i, tested c i -> in_block (rounded_epoch_mask a times c pad) i = true) /\
    (forall c i, tested c i ->
        rounded_idq_data a draws [c] pad dt epoch n !! i = Some (bump (baseline i))) /\
    (forall c1 c2 i, tested c1 i -> tested c2 i ->
        rounded_idq_data a draws [c1; c2] pad dt epoch n !! i
        = Some (bump (bump (baseline i)))) /\
    (monotone_arith a -> monotone_times a dt epoch n ->
     (forall c i, in_block (rounded_epoch_mask a times c pad) i = true <-> tested c i) /\
     (forall bad_times i, i < n ->
         (forall c, c ∈ bad_times -> ~ tested c i) ->
         rounded_idq_data a draws bad_times pad dt epoch n !! i = Some (baseline i))) /\
    (forall b : Q,
        (num_add exact (num_add exact b (num_of_nat exact 6)) (num_of_nat exact 6)
         == b + 12)%Q).
Proof.
  intros a draws pad dt epoch n times bump baseline tested. subst times.
  assert (Hhit : forall c i, tested c i ->
             in_block (rounded_epoch_mask a (rounded_sample_times a dt epoch n) c pad) i
             = true).
  { intros c i Hc. apply in_block_hit. apply lookup_rounded_mask. exact Hc. }
  split; [|split; [exact Hhit|split; [|split; [|split]]]].
  - intros bad_times i. apply lookup_rounded_idq_data.
  - intros c i Hc. rewrite lookup_rounded_idq_data.
    rewrite decide_True by apply Hc. unfold count_hits. simpl.
    rewrite (Hhit c i Hc). reflexivity.
  - intros c1 c2 i Hc1 Hc2. rewrite lookup_rounded_idq_data.
    rewrite decide_True by apply Hc1. unfold count_hits. simpl.
    rewrite (Hhit c1 i Hc1), (Hhit c2 i Hc2). reflexivity.
  - intros Harith Htimes.
    assert (Hexact : forall c i,
               in_block (rounded_epoch_mask a (rounded_sample_times a dt epoch n) c pad) i
               = true <-> tested c i).
    { intros c i.
      rewrite (in_block_convex _ i (rounded_mask_convex a dt epoch c pad n Harith Htimes)).
      apply lookup_rounded_mask. }
    split; [exact Hexact|].
    intros bad_times i Hi Hnone. rewrite lookup_rounded_idq_data.
    rewrite decide_True by exact Hi.
    assert (H0 : count_hits
                   (fun c => in_block
                               (rounded_epoch_mask a (rounded_sample_times a dt epoch n)
                                                   c pad) i)
                   bad_times = 0).
    { apply count_hits_0.
      destruct (existsb
                  (fun c => in_block
                              (rounded_epoch_mask a (rounded_sample_times a dt epoch n)
                                                  c pad) i)
                  bad_times) eqn:Hex; [|reflexivity].
      apply existsb_exists in Hex as (c & Hin & Hc). exfalso.
      apply (Hnone c); [apply list_elem_of_In; exact Hin|]. apply Hexact. exact Hc. }
    rewrite H0. reflexivity.
  - intros b. simpl. ring.
Qed.


Lemma rounded_idq_exact_example :
  rounded_idq_data exact (fun i => inject_Z (Z.of_nat i)) [(1 # 2)%Q] (1 # 4)%Q
                   (1 # 64)%Q 0%Q 128 !! 40 =
  Some (num_add exact (num_sub exact (inject_Z 40) (num_of_nat exact 1))
                (num_of_nat exact 6)).
Proof.
  apply (rounded_idq_bad_epochs_accumulate
           exact (fun i => inject_Z (Z.of_nat i)) (1 # 4)%Q (1 # 64)%Q 0%Q 128).
  split; [lia|]. vm_compute. reflexivity.
Defined.

(** * Frame splitting *)

Lemma py_range_length (start stop step : Z) (k : nat) :
  (0 < step)%Z ->
  k < Z.to_nat ((stop - start + step - 1) / step) <->
  (start + Z.of_nat k * step < stop)%Z.
Proof.
  intros Hstep. split.
  - intros H. destruct (Z.lt_ge_cases (start + Z.of_nat k * step) stop) as [Hlt|Hge];
      [exact Hlt|exfalso].
    assert (Hq : ((stop - start + step - 1) / step < Z.of_nat k + 1)%Z)
      by (apply Z.div_lt_upper_bound; [exact Hstep|nia]).
    lia.
  - intros H.
    assert (Hq : (Z.of_nat k + 1 <= (stop - start + step - 1) / step)%Z)
      by (apply Z.div_le_lower_bound; [exact Hstep|nia]).
    lia.
Qed.

Lemma py_range_spec (start stop step s : Z) :
  (0 < step)%Z ->
  s ∈ py_range start stop step <->
  exists k : nat, s = (start + Z.of_nat k * step)%Z /\ (s < stop)%Z.
Proof.
  intros Hstep. unfold py_range. rewrite list_elem_of_fmap. split.
  - intros (k & -> & Hk). apply elem_of_seq in Hk. exists k. split; [reflexivity|].
    apply py_range_length; [exact Hstep|lia].
  - intros (k & -> & Hlt). exists k. split; [reflexivity|].
    apply elem_of_seq. split; [lia|]. simpl. apply py_range_length; assumption.
Qed.

Lemma py_range_nil (start stop step : Z) :
  (0 < step)%Z -> (stop <= start)%Z -> py_range start stop step = [].
Proof.
  intros Hstep Hle. unfold py_range.
  replace (Z.to_nat ((stop - start + step - 1) / step)) with 0; [reflexivity|].
  destruct (Z.to_nat ((stop - start + step - 1) / step)) as [|m] eqn:Hm; [reflexivity|].
  assert (H : 0 < Z.to_nat ((stop - start + step - 1) / step)) by lia.
  apply py_range_length in H; [lia|exact Hstep].
Qed.

Lemma py_range_cons (start stop step : Z) :
  (0 < step)%Z -> (start < stop)%Z ->
  py_range start stop step = start :: py_range (start + step) stop step.
Proof.
  intros Hstep Hlt. unfold py_range.
  replace (stop - start + step - 1)%Z
    with ((stop - (start + step) + step - 1) + 1 * step)%Z by lia.
  rewrite Z.div_add by lia.
  assert (Hm : (0 <= (stop - (start + step) + step - 1) / step)%Z)
    by (apply Z.div_pos; lia).
  rewrite Z2Nat.inj_add by lia.
  replace (Z.to_nat 1) with 1 by reflexivity.
  rewrite Nat.add_comm. simpl. f_equal; [lia|].
  rewrite <- fmap_S_seq, <- list_fmap_compose.
  apply list_fmap_ext. intros i k _. simpl. lia.
Qed.

Lemma segment_at_min (stop step s : Z) :
  segment_at stop step s =
  mkSegment s (s + Z.min step (stop - s)) (Z.min step (stop - s)).
Proof.
  unfold segment_at. destruct (Z.ltb_spec (s + step) stop); f_equal; lia.
Qed.

Lemma segments_tile (start stop step : Z) :
  (0 < step)%Z -> (start <= stop)%Z -> tiles start stop (segments start stop step).
Proof.
  intros Hstep.
  remember (Z.to_nat (stop - start)) as m eqn:Hm.
  revert start Hm. induction m as [m IH] using lt_wf_ind. intros start Hm Hle.
  unfold segments. destruct (Z.eq_dec start stop) as [Heq|Hne].
  - rewrite py_range_nil by lia. simpl. exact Heq.
  - rewrite py_range_cons by lia. rewrite fmap_cons. simpl.
    destruct (Z.ltb_spec (start + step) stop) as [Hin|Hout].
    + repeat split; try lia.
      apply (IH (Z.to_nat (stop - (start + step)))); lia.
    + repeat split; try lia.
      rewrite py_range_nil by lia. simpl. reflexivity.
Qed.

Lemma tiles_total_duration (a b : Z) (segs : list Segment) :
  tiles a b segs -> total_duration segs = (b - a)%Z.
Proof.
  revert a. induction segs as [|seg segs IH]; intros a; simpl.
  - intros ->. unfold total_duration. simpl. lia.
  - intros (Hs & Hd & He & Hb & Hrest). apply IH in Hrest.
    unfold total_duration in *. rewrite fmap_cons. simpl foldr.
    rewrite Hrest. lia.
Qed.

(** C2. For an integer span [[start, stop)] and a positive frame duration,
    the segments are [(s, min(frame_duration, stop - s))] for [s] running
    over [start], [start + frame_duration], ... as long as [s < stop]: every
    segment starts inside the span, has a positive duration of at most the
    frame duration, and ends inside the span; the segments follow one
    another from [start] to [stop] without gap or overlap and their
    durations add up to [stop - start]. For the span [[0, 100)] and frame
    duration 30 they are (0,30), (30,30), (60,30), (90,10). *)
Theorem segments_cover_span :
  (forall start stop step : Z,
      (0 < step)%Z ->
      segments start stop step =
        (fun s => mkSegment s (s + Z.min step (stop - s)) (Z.min step (stop - s)))
          <$> py_range start stop step /\
      (forall s, s ∈ py_range start stop step <->
                 exists k : nat, s = (start + Z.of_nat k * step)%Z /\ (s < stop)%Z) /\
      (forall seg, seg ∈ segments start stop step ->
                   (start <= seg_start seg < stop)%Z /\
                   (0 < seg_duration seg <= step)%Z /\
                   seg_end seg = (seg_start seg + seg_duration seg)%Z /\
                   (seg_end seg <= stop)%Z) /\
      ((start <= stop)%Z ->
       tiles start stop (segments start stop step) /\
       total_duration (segments start stop step) = (stop - start)%Z) /\
      ((stop <= start)%Z -> segments start stop step = [])) /\
  segments 0 100 30 =
    [mkSegment 0 30 30; mkSegment 30 60 30; mkSegment 60 90 30; mkSegment 90 100 10] /\
  tiles 0 100 (segments 0 100 30) /\
  total_duration (segments 0 100 30) = 100%Z.
Proof.
  split; [|split; [reflexivity|split; [|reflexivity]]].
  - intros start stop step Hstep. split; [|split; [|split; [|split]]].
    + unfold segments. apply list_fmap_ext. intros i s _. apply segment_at_min.
    + intros s. apply py_range_spec. exact Hstep.
    + intros seg Hseg. unfold segments in Hseg.
      apply list_elem_of_fmap in Hseg as (s & -> & Hs).
      apply py_range_spec in Hs as (k & -> & Hlt); [|exact Hstep].
      rewrite segment_at_min. simpl. lia.
    + intros Hle. pose proof (segments_tile start stop step Hstep Hle) as Ht.
      split; [exact Ht|]. apply tiles_total_duration. exact Ht.
    + intros Hle. unfold segments. rewrite py_range_nil by assumption. reflexivity.
  - apply segments_tile; lia.
Qed.

(** * The script: what a failing run leaves behind *)

Lemma outputs_app (tr tr' : list Event) :
  outputs (tr ++ tr') = outputs tr ++ outputs tr'.
Proof. unfold outputs. apply List.filter_app. Qed.

Lemma bind_dies {A B : Type} (c : M A) (k : A -> M B) :
  quiet c -> (forall x, snd c = inr x -> dies (k x)) -> dies (bind c k).
Proof.
  destruct c as [tr [e|x]]; unfold quiet, dies, failed; simpl; intros Hq Hk.
  - split; [exists e; reflexivity|exact Hq].
  - specialize (Hk x eq_refl). destruct (k x) as [tr' r].
    destruct Hk as [Hf Hq']. split; [exact Hf|].
    change (outputs (tr ++ tr') = []). change (outputs tr' = []) in Hq'.
    rewrite outputs_app, Hq, Hq'. reflexivity.
Qed.

Lemma bind_dies_l {A B : Type} (c : M A) (k : A -> M B) :
  dies c -> dies (bind c k).
Proof.
  destruct c as [tr [e|x]]; unfold dies, failed, quiet; simpl.
  - intros [_ Hq]. split; [exists e; reflexivity|exact Hq].
  - intros [[e He] _]. discriminate.
Qed.

Ltac m_unfold :=
  unfold bind, required, np_zeros_size, TimeSeries_check, lift, ret, raise, emit in *.

Lemma quiet_check_frame_duration (args : Args) : quiet (check_frame_duration args).
Proof.
  unfold quiet, check_frame_duration. m_unfold. repeat case_match; reflexivity.
Qed.

Section ScriptFacts.

Variable normal_draw : Z -> nat -> Q.
Variable from_cli : Args -> PyError + Strain.
Variable astype : Precision -> list Q -> list Q.
Variable DYN_RANGE_FAC : Q.
Variable format_gate : Q -> Q -> Q -> string.
Variable format_name : string -> Z -> Z -> PyError + string.
Variable time_slice : Series -> Z -> Z -> PyError + Series.

(** Requesting the gate file ends the run at the lookup of [file]. *)
Lemma write_gates_requested (args : Args) (strain : Strain) :
  truthy_str (output_gates_file args) = true ->
  write_gates format_gate args strain =
  ([Log "Writing output gates"], inl (NameError "file")).
Proof. intros Hreq. unfold write_gates. rewrite Hreq. reflexivity. Qed.

Lemma write_gates_not_requested (args : Args) (strain : Strain) :
  truthy_str (output_gates_file args) = false ->
  write_gates format_gate args strain = ret tt.
Proof. intros Hreq. unfold write_gates. rewrite Hreq. reflexivity. Qed.

Lemma quiet_write_gates (args : Args) (strain : Strain) :
  quiet (write_gates format_gate args strain).
Proof.
  destruct (truthy_str (output_gates_file args)) eqn:Hreq.
  - rewrite write_gates_requested by exact Hreq. reflexivity.
  - rewrite write_gates_not_requested by exact Hreq. reflexivity.
Qed.

Lemma quiet_add_state_vector (args : Args) (strain : TimeSeries Q) :
  quiet (add_state_vector args strain).
Proof.
  unfold quiet, add_state_vector. m_unfold. repeat case_match; simplify_eq; reflexivity.
Qed.

Lemma quiet_add_dq_vector (args : Args) (strain : TimeSeries Q) :
  quiet (add_dq_vector args strain).
Proof.
  unfold quiet, add_dq_vector. m_unfold. repeat case_match; simplify_eq; reflexivity.
Qed.

Lemma quiet_add_idq (args : Args) (entropy : Z) (strain : TimeSeries Q) :
  quiet (add_idq normal_draw args entropy strain).
Proof.
  unfold quiet, add_idq. m_unfold. repeat case_match; simplify_eq; reflexivity.
Qed.

Lemma add_state_vector_fails (args : Args) (strain : TimeSeries Q) :
  state_vector args <> None ->
  state_vector_good args = None \/ state_off_segments args = None ->
  failed (add_state_vector args strain).
Proof.
  intros Hon Hmiss. unfold failed, add_state_vector. m_unfold.
  destruct (state_vector args) as [name|]; [|contradiction].
  destruct Hmiss as [-> | ->]; repeat case_match; simplify_eq; simpl; eauto.
Qed.

Lemma add_dq_vector_fails (args : Args) (strain : TimeSeries Q) :
  dq_vector args <> None ->
  dq_vector_good args = None \/ dq_bad_times args = None \/
  (dq_bad_pad args = None /\ dq_bad_times args <> Some []) ->
  failed (add_dq_vector args strain).
Proof.
  intros Hon Hmiss. unfold failed, add_dq_vector. m_unfold.
  destruct (dq_vector args) as [name|]; [|contradiction].
  destruct Hmiss as [-> | [-> | [-> Hne]]];
    repeat case_match; simplify_eq; simpl; eauto; contradiction.
Qed.

Lemma add_idq_fails (args : Args) (entropy : Z) (strain : TimeSeries Q) :
  idq_channel args <> None ->
  idq_bad_times args = None \/
  (idq_bad_pad args = None /\ idq_bad_times args <> Some []) ->
  failed (add_idq normal_draw args entropy strain).
Proof.
  intros Hon Hmiss. unfold failed, add_idq. m_unfold.
  destruct (idq_channel args) as [name|]; [|contradiction].
  destruct Hmiss as [-> | [-> Hne]];
    repeat case_match; simplify_eq; simpl; eauto; contradiction.
Qed.

End ScriptFacts.

(** * The script: validation, missing sub-parameters, gate log *)

Section RunFacts.

Variable normal_draw : Z -> nat -> Q.
Variable from_cli : Args -> PyError + Strain.
Variable astype : Precision -> list Q -> list Q.
Variable DYN_RANGE_FAC : Q.
Variable format_gate : Q -> Q -> Q -> string.
Variable format_name : string -> Z -> Z -> PyError + string.
Variable time_slice : Series -> Z -> Z -> PyError + Series.

(** C7. A frame duration that is given and is zero or negative ends the run
    with the argument parser's error exit (status 2) as its first action:
    whatever the strain source, no strain is read, nothing is logged and
    nothing is written. *)
Theorem nonpositive_frame_duration_rejected :
  forall (args : Args) (os_entropy : Z) (d : Z),
    frame_duration args = Some d -> (d <= 0)%Z ->
    run normal_draw from_cli astype DYN_RANGE_FAC format_gate format_name time_slice
        args os_entropy = ([], inl (SystemExit 2)) /\
    outputs (fst (run normal_draw from_cli astype DYN_RANGE_FAC format_gate
                      format_name time_slice args os_entropy)) = [].
Proof.
  intros args os_entropy d Hd Hle.
  assert (Hrun : run normal_draw from_cli astype DYN_RANGE_FAC format_gate format_name
                      time_slice args os_entropy = ([], inl (SystemExit 2))).
  { unfold run, check_frame_duration. rewrite Hd.
    rewrite (proj2 (Z.leb_le d 0) Hle). reflexivity. }
  split; [exact Hrun|]. rewrite Hrun. reflexivity.
Qed.

(** C8, amended. When an auxiliary channel is enabled by its name while its
    good value, its list of off segments, its list of bad times or (with at
    least one bad time) its pad is absent, the run fails before any file is
    written to. The random seed is not such a sub-parameter. *)
Theorem missing_sub_parameter_fails_before_writing :
  forall (args : Args) (os_entropy : Z),
    missing_sub_parameter args ->
    failed (run normal_draw from_cli astype DYN_RANGE_FAC format_gate format_name
                time_slice args os_entropy) /\
    outputs (fst (run normal_draw from_cli astype DYN_RANGE_FAC format_gate
                      format_name time_slice args os_entropy)) = [].
Proof.
  intros args os_entropy Hmiss.
  change (dies (run normal_draw from_cli astype DYN_RANGE_FAC format_gate format_name
                    time_slice args os_entropy)).
  unfold run.
  apply bind_dies; [apply quiet_check_frame_duration|]. intros _ _.
  apply bind_dies; [reflexivity|]. intros strain _.
  apply bind_dies; [apply quiet_write_gates|]. intros _ _.
  destruct Hmiss as [[Hon Hs]|[[Hon Hd]|[Hon Hi]]].
  - apply bind_dies_l. split;
      [apply add_state_vector_fails; assumption|apply quiet_add_state_vector].
  - apply bind_dies; [apply quiet_add_state_vector|]. intros state _.
    apply bind_dies_l. split;
      [apply add_dq_vector_fails; assumption|apply quiet_add_dq_vector].
  - apply bind_dies; [apply quiet_add_state_vector|]. intros state _.
    apply bind_dies; [apply quiet_add_dq_vector|]. intros dq _.
    apply bind_dies_l. split;
      [apply add_idq_fails; assumption|apply quiet_add_idq].
Qed.

(** C9: what the code does when a gate file is requested. Once the strain is
    there, the run logs that it writes the gates and ends with a NameError at
    the call of [file]: the gate file is not opened and no gate line is
    written. *)
Theorem gate_log_request_raises_NameError :
  forall (args : Args) (os_entropy : Z) (strain : Strain),
    (forall d, frame_duration args = Some d -> (0 < d)%Z) ->
    from_cli args = inr strain ->
    truthy_str (output_gates_file args) = true ->
    run normal_draw from_cli astype DYN_RANGE_FAC format_gate format_name time_slice
        args os_entropy = ([Log "Writing output gates"], inl (NameError "file")).
Proof.
  intros args os_entropy strain Hframe Hcli Hreq. unfold run.
  assert (Hcheck : check_frame_duration args = ret tt).
  { unfold check_frame_duration. destruct (frame_duration args) as [d|]; [|reflexivity].
    specialize (Hframe d eq_refl).
    rewrite (proj2 (Z.leb_gt d 0)) by lia. reflexivity. }
  rewrite Hcheck. unfold ret. rewrite bind_ret, Hcli. unfold lift.
  rewrite bind_ret, (write_gates_requested format_gate args strain Hreq).
  reflexivity.
Qed.

End RunFacts.

Lemma nonpositive_frame_duration_rejected_example :
  example_run (example_args (Some 0%Z) None None None) 7 = ([], inl (SystemExit 2)) /\
  outputs (fst (example_run (example_args (Some 0%Z) None None None) 7)) = [].
Proof.
  apply (nonpositive_frame_duration_rejected
           example_normal_draw example_from_cli example_astype 1 example_format_gate
           example_format_name example_time_slice
           (example_args (Some 0%Z) None None None) 7 0%Z).
  - reflexivity.
  - lia.
Defined.

Lemma missing_sub_parameter_fails_example :
  failed (example_run (example_args None None (Some "STATE"%string) None) 7) /\
  outputs (fst (example_run (example_args None None (Some "STATE"%string) None) 7)) = [].
Proof.
  apply (missing_sub_parameter_fails_before_writing
           example_normal_draw example_from_cli example_astype 1 example_format_gate
           example_format_name example_time_slice
           (example_args None None (Some "STATE"%string) None) 7).
  left. split; [discriminate|]. left. reflexivity.
Defined.

(** C8, as stated, fails for the random seed: with the iDQ channel enabled
    and no seed given, the run succeeds and writes the frame. *)
Lemma missing_seed_run_succeeds :
  idq_channel (example_args None None None (Some "IDQ"%string)) <> None /\
  random_seed (example_args None None None (Some "IDQ"%string)) = None /\
  snd (example_run (example_args None None None (Some "IDQ"%string)) 7) = inr tt /\
  outputs (fst (example_run (example_args None None None (Some "IDQ"%string)) 7)) <> [].
Proof.
  split; [discriminate|]. split; [reflexivity|].
  split; [vm_compute; reflexivity|]. vm_compute. discriminate.
Qed.

Lemma gate_log_request_example :
  example_run (example_args None (Some "gates.txt"%string) None None) 7 =
  ([Log "Writing output gates"], inl (NameError "file")).
Proof.
  apply (gate_log_request_raises_NameError
           example_normal_draw example_from_cli example_astype 1 example_format_gate
           example_format_name example_time_slice
           (example_args None (Some "gates.txt"%string) None None) 7 example_strain).
  - intros d Hd. discriminate Hd.
  - reflexivity.
  - reflexivity.
Defined.

(** * Further facts: strings and computations *)

Lemma substring_all (s : string) : substring 0 (String.length s) s = s.
Proof. induction s as [|c s IH]; simpl; [reflexivity|]. rewrite IH. reflexivity. Qed.

Lemma substring_skip_prefix (p s : string) (m : nat) :
  substring (String.length p) m (p ++ s)%string = substring 0 m s.
Proof. induction p as [|c p IH]; simpl; [reflexivity|exact IH]. Qed.

Lemma string_length_app (p s : string) :
  String.length (p ++ s)%string = String.length p + String.length s.
Proof. induction p as [|c p IH]; simpl; [reflexivity|]. rewrite IH. reflexivity. Qed.

Lemma substring_split (s : string) (k : nat) :
  k <= String.length s ->
  s = (substring 0 k s ++ substring k (String.length s - k) s)%string.
Proof.
  revert k. induction s as [|c s IH]; intros k Hk; simpl in *.
  - destruct k; reflexivity.
  - destruct k as [|k]; simpl.
    + rewrite substring_all. reflexivity.
    + f_equal. apply IH. lia.
Qed.

(** [s.endswith(suffix)] holds exactly when [s] is some prefix followed by
    the suffix. *)
Lemma endswith_spec (s suffix : string) :
  endswith s suffix = true <-> exists prefix, s = (prefix ++ suffix)%string.
Proof.
  unfold endswith. rewrite andb_true_iff, Nat.leb_le, String.eqb_eq. split.
  - intros [Hle Hsub]. exists (substring 0 (String.length s - String.length suffix) s).
    pose proof (substring_split s (String.length s - String.length suffix)) as Hsplit.
    replace (String.length s - (String.length s - String.length suffix))
      with (String.length suffix) in Hsplit by lia.
    rewrite Hsub in Hsplit. apply Hsplit. lia.
  - intros [prefix ->]. rewrite string_length_app. split; [lia|].
    replace (String.length prefix + String.length suffix - String.length suffix)
      with (String.length prefix) by lia.
    rewrite substring_skip_prefix. apply substring_all.
Qed.

Lemma snd_bind {A B : Type} (c : M A) (k : A -> M B) (x : A) :
  snd c = inr x -> snd (bind c k) = snd (k x).
Proof.
  destruct c as [tr [e|x']]; simpl; [discriminate|]. intros [= ->].
  destruct (k x) as [tr' r]. reflexivity.
Qed.




Lemma Forall_bind {A B : Type} (P : Event -> Prop) (c : M A) (k : A -> M B) :
  Forall P (fst c) -> (forall x, snd c = inr x -> Forall P (fst (k x))) ->
  Forall P (fst (bind c k)).
Proof.
  destruct c as [tr [e|x]]; simpl; intros Hc Hk; [exact Hc|].
  specialize (Hk x eq_refl). destruct (k x) as [tr' r]. simpl in *.
  apply Forall_app. split; assumption.
Qed.

Lemma Forall_for_each {A : Type} (P : Event -> Prop) (l : list A) (body : A -> M unit) :
  (forall x, x ∈ l -> Forall P (fst (body x))) -> Forall P (fst (for_each l body)).
Proof.
  induction l as [|x l IH]; intros Hb; cbn [for_each]; [constructor|].
  apply Forall_bind.
  - apply Hb. left.
  - intros _ _. apply IH. intros y Hy. apply Hb. right. exact Hy.
Qed.

Lemma fst_bind_nil {A B : Type} (c : M A) (k : A -> M B) :
  fst c = [] -> (forall x, fst (k x) = []) -> fst (bind c k) = [].
Proof.
  destruct c as [tr [e|x]]; simpl; intros -> Hk; [reflexivity|].
  specialize (Hk x). destruct (k x) as [tr' r]. simpl in *. exact Hk.
Qed.

Lemma quiet_for_list {A B : Type} (l : list A) (f : A -> PyError + B) :
  fst (for_list l (fun x => lift (f x))) = [].
Proof.
  induction l as [|x l IH]; cbn [for_list]; [reflexivity|].
  apply fst_bind_nil; [reflexivity|]. intros y.
  apply fst_bind_nil; [exact IH|]. intros ys. reflexivity.
Qed.


(** * Further facts: what any run may leave behind *)

Lemma trace_check_frame_duration (args : Args) : fst (check_frame_duration args) = [].
Proof. unfold check_frame_duration. m_unfold. repeat case_match; reflexivity. Qed.

Lemma trace_add_state_vector (args : Args) (strain : TimeSeries Q) :
  fst (add_state_vector args strain) = [].
Proof. unfold add_state_vector. m_unfold. repeat case_match; simplify_eq; reflexivity. Qed.

Lemma trace_add_dq_vector (args : Args) (strain : TimeSeries Q) :
  fst (add_dq_vector args strain) = [].
Proof. unfold add_dq_vector. m_unfold. repeat case_match; simplify_eq; reflexivity. Qed.

Lemma trace_add_idq (normal_draw : Z -> nat -> Q) (args : Args) (entropy : Z)
      (strain : TimeSeries Q) :
  fst (add_idq normal_draw args entropy strain) = [].
Proof. unfold add_idq. m_unfold. repeat case_match; simplify_eq; reflexivity. Qed.

(** [write_strain] by the ending of the file name. *)
Lemma write_strain_gwf (file_name : string) (channel : list string) (data : list Series) :
  endswith file_name ".gwf" = true ->
  write_strain file_name channel data =
  ([Log ("Writing output strain to " ++ file_name)%string;
    WriteFrame file_name channel data], inr tt).
Proof. intros H. unfold write_strain. rewrite H. reflexivity. Qed.

Lemma write_strain_not_gwf (file_name : string) (channel : list string)
      (data : list Series) :
  endswith file_name ".gwf" = false ->
  exists e, write_strain file_name channel data =
            ([Log ("Writing output strain to " ++ file_name)%string], inl e).
Proof.
  intros H. unfold write_strain. rewrite H.
  destruct (endswith file_name ".hdf" || endswith file_name ".h5"); eexists; reflexivity.
Qed.

Lemma write_strain_events (file_name : string) (channel : list string)
      (data : list Series) :
  Forall frame_to_gwf (fst (write_strain file_name channel data)).
Proof.
  destruct (endswith file_name ".gwf") eqn:Hext.
  - rewrite write_strain_gwf by exact Hext. simpl.
    repeat constructor. apply endswith_spec. exact Hext.
  - destruct (write_strain_not_gwf file_name channel data Hext) as [e ->].
    simpl. repeat constructor.
Qed.

Lemma frames_outputs (tr : list Event) : frames tr = frames (outputs tr).
Proof.
  unfold frames, outputs. induction tr as [|e tr IH]; simpl; [reflexivity|].
  destruct e; simpl; rewrite IH; reflexivity.
Qed.

Lemma dies_no_frame {A : Type} (c : M A) : dies c -> failed c /\ frames (fst c) = [].
Proof.
  intros [Hf Hq]. split; [exact Hf|]. rewrite frames_outputs, Hq. reflexivity.
Qed.

Section RunEvents.

Variable normal_draw : Z -> nat -> Q.
Variable from_cli : Args -> PyError + Strain.
Variable astype : Precision -> list Q -> list Q.
Variable DYN_RANGE_FAC : Q.
Variable format_gate : Q -> Q -> Q -> string.
Variable format_name : string -> Z -> Z -> PyError + string.
Variable time_slice : Series -> Z -> Z -> PyError + Series.

Lemma write_output_events (args : Args) (names : list string) (series : list Series) :
  Forall frame_to_gwf (fst (write_output format_name time_slice args names series)).
Proof.
  unfold write_output. destruct (truthy_int (frame_duration args)).
  - apply Forall_for_each. intros seg _.
    apply Forall_bind; [rewrite quiet_for_list; constructor|]. intros out_ts _.
    apply Forall_bind; [constructor|]. intros complete_fn _.
    apply write_strain_events.
  - apply write_strain_events.
Qed.

(** X1. Whatever the arguments and the collaborators, and whether the run
    succeeds or fails, every frame it writes goes to a file whose name ends
    in [.gwf]. *)
Theorem run_writes_frames_to_gwf_only :
  forall (args : Args) (os_entropy : Z),
    Forall frame_to_gwf
           (fst (run normal_draw from_cli astype DYN_RANGE_FAC format_gate format_name
                     time_slice args os_entropy)).
Proof.
  intros args os_entropy. unfold run.
  apply Forall_bind; [rewrite trace_check_frame_duration; constructor|]. intros _ _.
  apply Forall_bind; [constructor|]. intros strain _.
  apply Forall_bind.
  { destruct (truthy_str (output_gates_file args)) eqn:Hreq.
    - rewrite write_gates_requested by exact Hreq. repeat constructor.
    - rewrite write_gates_not_requested by exact Hreq. constructor. }
  intros _ _.
  apply Forall_bind; [rewrite trace_add_state_vector; constructor|]. intros state _.
  apply Forall_bind; [rewrite trace_add_dq_vector; constructor|]. intros dq _.
  apply Forall_bind; [rewrite trace_add_idq; constructor|]. intros idq _.
  apply Forall_bind; [apply write_output_events|]. intros _ _.
  repeat constructor.
Qed.

(** X2. A failure of the strain source ends the run with that very failure,
    before anything is logged or written. *)
Theorem upstream_error_propagates :
  forall (args : Args) (os_entropy : Z) (e : PyError),
    (forall d, frame_duration args = Some d -> (0 < d)%Z) ->
    from_cli args = inl e ->
    run normal_draw from_cli astype DYN_RANGE_FAC format_gate format_name time_slice
        args os_entropy = ([], inl e).
Proof.
  intros args os_entropy e Hframe Hcli. unfold run.
  assert (Hcheck : check_frame_duration args = ret tt).
  { unfold check_frame_duration. destruct (frame_duration args) as [d|]; [|reflexivity].
    specialize (Hframe d eq_refl).
    rewrite (proj2 (Z.leb_gt d 0)) by lia. reflexivity. }
  rewrite Hcheck. unfold ret. rewrite bind_ret, Hcli. reflexivity.
Qed.

(** X3. Without frame splitting, a destination whose name does not end in
    [.gwf] makes the run fail without writing any frame: [.hdf] and [.h5]
    names included, since the script hands [write_strain] a list of series. *)
Theorem non_gwf_destination_writes_nothing :
  forall (args : Args) (os_entropy : Z),
    truthy_int (frame_duration args) = false ->
    (forall prefix, output_file args <> (prefix ++ ".gwf")%string) ->
    failed (run normal_draw from_cli astype DYN_RANGE_FAC format_gate format_name
                time_slice args os_entropy) /\
    frames (fst (run normal_draw from_cli astype DYN_RANGE_FAC format_gate
                     format_name time_slice args os_entropy)) = [].
Proof.
  intros args os_entropy Hsplit Hext. apply dies_no_frame.
  change (dies (run normal_draw from_cli astype DYN_RANGE_FAC format_gate format_name
                    time_slice args os_entropy)).
  assert (Hends : endswith (output_file args) ".gwf" = false).
  { destruct (endswith (output_file args) ".gwf") eqn:H; [|reflexivity].
    apply endswith_spec in H as [prefix H]. exfalso. exact (Hext prefix H). }
  unfold run.
  apply bind_dies; [apply quiet_check_frame_duration|]. intros _ _.
  apply bind_dies; [reflexivity|]. intros strain _.
  apply bind_dies; [apply quiet_write_gates|]. intros _ _.
  apply bind_dies; [apply quiet_add_state_vector|]. intros state _.
  apply bind_dies; [apply quiet_add_dq_vector|]. intros dq _.
  apply bind_dies; [apply quiet_add_idq|]. intros idq _.
  apply bind_dies_l. unfold write_output. rewrite Hsplit.
  destruct (write_strain_not_gwf (output_file args)
              (fst <$> (channel_name args, FloatSeries (normalize astype DYN_RANGE_FAC args
                                                          (strain_ts strain)))
                       :: state ++ dq ++ idq)
              (snd <$> (channel_name args, FloatSeries (normalize astype DYN_RANGE_FAC args
                                                          (strain_ts strain)))
                       :: state ++ dq ++ idq) Hends) as [e ->].
  split; [exists e; reflexivity|reflexivity].
Qed.

End RunEvents.

(** * Further facts: what a successful run writes *)

Ltac channel_ok len_lemma :=
  repeat case_match; simplify_eq;
  intros H; cbn [snd fst] in H; try discriminate H; injection H as <-;
  (split; [reflexivity|]);
  cbn [fmap list_fmap snd];
  (constructor; [|constructor]);
  unfold series_start_time, series_delta_t, series_length;
  rewrite len_lemma;
  repeat match goal with
         | H : (_ <? 1)%nat = false |- _ => apply Nat.ltb_ge in H
         | H : (_ <? 0)%Z = false |- _ => apply Z.ltb_ge in H
         end;
  repeat split; try reflexivity; try assumption; try lia.

Lemma length_state_vector (good : Z) (segs : list (Q * Q)) (epoch : Q) (n : nat) :
  length (data (state_vector_ts good segs epoch n)) = n.
Proof. eapply length_data_lookup. intros i. apply lookup_state_vector. Qed.

Lemma length_dq_vector (good : Z) (bad_times : list Q) (pad epoch : Q) (n : nat) :
  length (data (dq_vector_ts good bad_times pad epoch n)) = n.
Proof. eapply length_data_lookup. intros i. apply lookup_dq_vector. Qed.

Lemma length_idq_channel (normal_draw : Z -> nat -> Q) (seed : option Z) (entropy : Z)
      (bad_times : list Q) (pad dt epoch : Q) (n : nat) :
  length (data (idq_channel_ts normal_draw seed entropy bad_times pad dt epoch n)) = n.
Proof. eapply length_data_lookup. intros i. apply lookup_idq_channel. Qed.

Lemma add_state_vector_ok (args : Args) (strain : TimeSeries Q)
      (r : list (string * Series)) :
  snd (add_state_vector args strain) = inr r ->
  fst <$> r = option_list (state_vector args) /\
  Forall (fun s => series_start_time s = start_time strain /\
                   series_delta_t s = (1 # 16)%Q /\
                   (1 <= series_length s)%nat /\
                   Z.of_nat (series_length s) = state_size strain) (snd <$> r).
Proof.
  unfold add_state_vector. m_unfold.
  destruct (state_vector args) as [name|];
    [|intros [= <-]; split; constructor].
  channel_ok length_state_vector.
Qed.

Lemma add_dq_vector_ok (args : Args) (strain : TimeSeries Q)
      (r : list (string * Series)) :
  snd (add_dq_vector args strain) = inr r ->
  fst <$> r = option_list (dq_vector args) /\
  Forall (fun s => series_start_time s = start_time strain /\
                   series_delta_t s = (1 # 64)%Q /\
                   (1 <= series_length s)%nat /\
                   Z.of_nat (series_length s) = dq_size strain) (snd <$> r).
Proof.
  unfold add_dq_vector. m_unfold.
  destruct (dq_vector args) as [name|];
    [|intros [= <-]; split; constructor].
  channel_ok length_dq_vector.
Qed.

Lemma add_idq_ok (normal_draw : Z -> nat -> Q) (args : Args) (entropy : Z)
      (strain : TimeSeries Q) (r : list (string * Series)) :
  snd (add_idq normal_draw args entropy strain) = inr r ->
  fst <$> r = option_list (idq_channel args) /\
  Forall (fun s => series_start_time s = start_time strain /\
                   series_delta_t s = delta_t strain /\
                   (1 <= series_length s)%nat /\
                   series_length s = length (data strain)) (snd <$> r).
Proof.
  unfold add_idq. m_unfold.
  destruct (idq_channel args) as [name|];
    [|intros [= <-]; split; constructor].
  channel_ok length_idq_channel.
Qed.




Section SuccessfulRuns.

Variable normal_draw : Z -> nat -> Q.
Variable from_cli : Args -> PyError + Strain.
Variable astype : Precision -> list Q -> list Q.
Variable DYN_RANGE_FAC : Q.
Variable format_gate : Q -> Q -> Q -> string.
Variable format_name : string -> Z -> Z -> PyError + string.
Variable time_slice : Series -> Z -> Z -> PyError + Series.


Lemma delta_t_normalize (args : Args) (strain : TimeSeries Q) :
  delta_t (normalize astype DYN_RANGE_FAC args strain) = delta_t strain.
Proof. unfold normalize. destruct (dyn_range_factor args); reflexivity. Qed.





End SuccessfulRuns.

(** * Further facts: degenerate overrides, order of overrides, frames *)

Lemma override_no_hit {A : Type} (f : A -> A) (mask : list bool) (d : list A) :
  (forall k, mask !! k <> Some true) -> override f (flatnonzero mask) d = d.
Proof. intros Hno. apply (override_frame f mask d). exact Hno. Qed.

Lemma pred_mask_never (P : Q -> bool) (times : list Q) (k : nat) :
  (forall t, P t = false) -> (P <$> times) !! k <> Some true.
Proof.
  intros HP. rewrite list_lookup_fmap. destruct (times !! k) as [t|]; simpl.
  - rewrite HP. discriminate.
  - discriminate.
Qed.

(** X7. An off segment whose end is not after its start changes nothing,
    whatever the sample times: the state vector built from such segments
    alone is all good. *)
Theorem empty_off_segment_is_noop :
  forall (start end_ : Q),
    (end_ <= start)%Q ->
    (forall (times : list Q) (d : list Z), state_off times d (start, end_) = d) /\
    (forall (good : Z) (epoch : Q) (n : nat),
        data (state_vector_ts good [(start, end_)] epoch n) = replicate n (uint32 good)).
Proof.
  intros start end_ Hle.
  assert (Hnever : forall t, Qle_bool start t && Qltb t end_ = false).
  { intros t. destruct (Qle_bool start t && Qltb t end_) eqn:H; [|reflexivity].
    apply in_segment_iff in H. lra. }
  assert (Hoff : forall (times : list Q) (d : list Z), state_off times d (start, end_) = d).
  { intros times d. rewrite state_off_unfold. apply override_no_hit.
    intros k. apply pred_mask_never. exact Hnever. }
  split; [exact Hoff|].
  intros good epoch n. unfold state_vector_ts. cbn [data foldl]. rewrite Hoff.
  apply filled_uint32_eq.
Qed.

(** X8. With a pad that is zero or negative no sample is closer than the pad to
    any center: the DQ vector is all good and the iDQ channel is its
    baseline, whatever the bad times. *)
Theorem nonpositive_pad_flags_nothing :
  forall (pad : Q),
    (pad <= 0)%Q ->
    (forall (good : Z) (bad_times : list Q) (epoch : Q) (n : nat),
        data (dq_vector_ts good bad_times pad epoch n) = replicate n (uint32 good)) /\
    (forall (normal_draw : Z -> nat -> Q) (seed : option Z) (entropy : Z)
            (bad_times : list Q) (dt epoch : Q) (n : nat),
        data (idq_channel_ts normal_draw seed entropy bad_times pad dt epoch n) =
        idq_baseline normal_draw seed entropy n).
Proof.
  intros pad Hpad.
  assert (Hnever : forall t c, in_epoch pad t c = false).
  { intros t c. destruct (in_epoch pad t c) eqn:H; [|reflexivity].
    unfold in_epoch in H. apply Qltb_iff in H.
    pose proof (Qabs_nonneg (t - c)). lra. }
  assert (Hex : forall t l, existsb (in_epoch pad t) l = false).
  { intros t l. induction l as [|c l IH]; simpl; [reflexivity|].
    rewrite Hnever, IH. reflexivity. }
  split.
  - intros good bad_times epoch n. apply list_eq. intros i.
    rewrite lookup_dq_vector, Hex. destruct (decide (i < n)).
    + symmetry. apply lookup_replicate_2. assumption.
    + symmetry. apply lookup_replicate_None. lia.
  - intros normal_draw seed entropy bad_times dt epoch n. apply list_eq. intros i.
    rewrite lookup_idq_channel, lookup_idq_baseline.
    destruct (decide (i < n)); [|reflexivity].
    rewrite (proj2 (count_hits_0 _ _) (Hex _ _)). reflexivity.
Qed.

Lemma existsb_same_elements {B : Type} (P : B -> bool) (l l' : list B) :
  (forall x, x ∈ l <-> x ∈ l') -> existsb P l = existsb P l'.
Proof.
  intros Hsame.
  destruct (existsb P l) eqn:H1; destruct (existsb P l') eqn:H2; try reflexivity.
  - apply existsb_exists in H1 as (x & Hin & Hx). exfalso.
    assert (H : existsb P l' = true); [|congruence].
    apply existsb_exists. exists x. split; [|exact Hx].
    apply list_elem_of_In, Hsame, list_elem_of_In, Hin.
  - apply existsb_exists in H2 as (x & Hin & Hx). exfalso.
    assert (H : existsb P l = true); [|congruence].
    apply existsb_exists. exists x. split; [|exact Hx].
    apply list_elem_of_In, Hsame, list_elem_of_In, Hin.
Qed.

Lemma count_hits_Permutation {B : Type} (P : B -> bool) (l l' : list B) :
  l ≡ₚ l' -> count_hits P l = count_hits P l'.
Proof.
  unfold count_hits. induction 1 as [|x l l' _ IH|x y l|l l' l'' _ IH1 _ IH2]; simpl.
  - reflexivity.
  - destruct (P x); simpl; rewrite IH; reflexivity.
  - destruct (P x), (P y); reflexivity.
  - rewrite IH1. exact IH2.
Qed.

(** X9. The result of the override loops does not depend on the order of the
    overrides. The state vector and the DQ vector depend only on which off
    segments and which bad times are listed, not on their order or on
    repetitions; the iDQ channel keeps its data when its bad times are
    reordered. *)
Theorem overrides_order_independent :
  (forall (good : Z) (segs segs' : list (Q * Q)) (epoch : Q) (n : nat),
      (forall ss, ss ∈ segs <-> ss ∈ segs') ->
      state_vector_ts good segs epoch n = state_vector_ts good segs' epoch n) /\
  (forall (good : Z) (bad_times bad_times' : list Q) (pad epoch : Q) (n : nat),
      (forall c, c ∈ bad_times <-> c ∈ bad_times') ->
      dq_vector_ts good bad_times pad epoch n = dq_vector_ts good bad_times' pad epoch n) /\
  (forall (normal_draw : Z -> nat -> Q) (seed : option Z) (entropy : Z)
          (bad_times bad_times' : list Q) (pad dt epoch : Q) (n : nat),
      bad_times ≡ₚ bad_times' ->
      data (idq_channel_ts normal_draw seed entropy bad_times pad dt epoch n) =
      data (idq_channel_ts normal_draw seed entropy bad_times' pad dt epoch n)).
Proof.
  split; [|split].
  - intros good segs segs' epoch n Hsame. apply state_vector_ts_ext.
    intros t. apply existsb_same_elements. exact Hsame.
  - intros good bad_times bad_times' pad epoch n Hsame.
    assert (Hd : data (dq_vector_ts good bad_times pad epoch n) =
                 data (dq_vector_ts good bad_times' pad epoch n)).
    { apply list_eq. intros i. rewrite !lookup_dq_vector.
      rewrite (existsb_same_elements _ bad_times bad_times' Hsame). reflexivity. }
    unfold dq_vector_ts in *. simpl in Hd. rewrite Hd. reflexivity.
  - intros normal_draw seed entropy bad_times bad_times' pad dt epoch n Hperm.
    apply list_eq. intros i. rewrite !lookup_idq_channel.
    rewrite (count_hits_Permutation _ bad_times bad_times' Hperm). reflexivity.
Qed.

Lemma lookup_segments (start stop step : Z) (i : nat) (seg : Segment) :
  (0 < step)%Z ->
  segments start stop step !! i = Some seg ->
  (start + Z.of_nat i * step < stop)%Z /\
  seg = segment_at stop step (start + Z.of_nat i * step).
Proof.
  intros Hstep. unfold segments, py_range. rewrite !list_lookup_fmap.
  destruct (seq 0 (Z.to_nat ((stop - start + step - 1) / step)) !! i) as [k|] eqn:Hk;
    simpl; [|discriminate].
  apply lookup_seq in Hk as [-> Hlt]. simpl. intros [= <-].
  split; [|reflexivity]. apply py_range_length; assumption.
Qed.

Lemma length_segments (start stop step : Z) :
  length (segments start stop step) = Z.to_nat ((stop - start + step - 1) / step).
Proof. unfold segments, py_range. rewrite !length_fmap. apply length_seq. Qed.

(** X10. For a positive frame duration, frame [i] starts at
    [start + i * frame_duration]; every frame but the last lasts exactly the
    frame duration, the last one ends at [stop] and is the only one that may
    be shorter; no two frames start at the same time. *)
Theorem segments_by_index :
  forall (start stop step : Z),
    (0 < step)%Z ->
    (forall (i : nat) (seg : Segment),
        segments start stop step !! i = Some seg ->
        seg_start seg = (start + Z.of_nat i * step)%Z /\
        (S i < length (segments start stop step) ->
         seg_duration seg = step /\ seg_end seg = (seg_start seg + step)%Z) /\
        (S i = length (segments start stop step) ->
         seg_end seg = stop /\ (0 < seg_duration seg <= step)%Z /\
         seg_duration seg = (stop - seg_start seg)%Z)) /\
    NoDup (seg_start <$> segments start stop step).
Proof.
  intros start stop step Hstep. split.
  - intros i seg Hseg.
    destruct (lookup_segments start stop step i seg Hstep Hseg) as [Hlt ->].
    rewrite length_segments. split; [reflexivity|]. split.
    + intros Hnext. apply py_range_length in Hnext; [|exact Hstep].
      unfold segment_at. simpl.
      rewrite (proj2 (Z.ltb_lt _ _)) by lia. split; reflexivity.
    + intros Hlast.
      assert (Hge : ~ (S i < Z.to_nat ((stop - start + step - 1) / step))) by lia.
      rewrite py_range_length in Hge by exact Hstep.
      unfold segment_at. simpl.
      rewrite (proj2 (Z.ltb_ge _ _)) by lia. repeat split; lia.
  - apply NoDup_alt. intros i j s Hi Hj.
    rewrite list_lookup_fmap in Hi, Hj.
    destruct (segments start stop step !! i) as [si|] eqn:Hsi; [|discriminate].
    destruct (segments start stop step !! j) as [sj|] eqn:Hsj; [|discriminate].
    simpl in Hi, Hj. injection Hi as Hi. injection Hj as Hj.
    destruct (lookup_segments start stop step i si Hstep Hsi) as [_ ->].
    destruct (lookup_segments start stop step j sj Hstep Hsj) as [_ ->].
    simpl in Hi, Hj. nia.
Qed.

(** * Further facts: the auxiliary channels next to the strain *)

(** X6. Every auxiliary channel the script builds starts at the strain's
    start time. The state vector has spacing 1/16 s and
    [int(strain.duration * 16)] samples, the DQ vector spacing 1/64 s and
    [int(strain.duration * 64)] samples, the iDQ channel the spacing and the
    length of the strain; each synthesis yields the channel under its
    configured name, or nothing when the channel is not enabled. *)
Theorem aux_channels_aligned :
  forall (normal_draw : Z -> nat -> Q) (args : Args) (os_entropy : Z)
         (strain : TimeSeries Q),
    (forall r, snd (add_state_vector args strain) = inr r ->
               fst <$> r = option_list (state_vector args) /\
               Forall (fun s => series_start_time s = start_time strain /\
                                series_delta_t s = (1 # 16)%Q /\
                                Z.of_nat (series_length s) = state_size strain)
                      (snd <$> r)) /\
    (forall r, snd (add_dq_vector args strain) = inr r ->
               fst <$> r = option_list (dq_vector args) /\
               Forall (fun s => series_start_time s = start_time strain /\
                                series_delta_t s = (1 # 64)%Q /\
                                Z.of_nat (series_length s) = dq_size strain)
                      (snd <$> r)) /\
    (forall r, snd (add_idq normal_draw args os_entropy strain) = inr r ->
               fst <$> r = option_list (idq_channel args) /\
               Forall (fun s => series_start_time s = start_time strain /\
                                series_delta_t s = delta_t strain /\
                                series_length s = length (data strain))
                      (snd <$> r)).
Proof.
  intros normal_draw args os_entropy strain. split; [|split].
  - intros r Hr. destruct (add_state_vector_ok _ _ _ Hr) as [Hn Hs].
    split; [exact Hn|]. eapply Forall_impl; [exact Hs|]. simpl. tauto.
  - intros r Hr. destruct (add_dq_vector_ok _ _ _ Hr) as [Hn Hs].
    split; [exact Hn|]. eapply Forall_impl; [exact Hs|]. simpl. tauto.
  - intros r Hr. destruct (add_idq_ok _ _ _ _ _ Hr) as [Hn Hs].
    split; [exact Hn|]. eapply Forall_impl; [exact Hs|]. simpl. tauto.
Qed.

(** * Examples of the further facts *)

Lemma upstream_error_propagates_example :
  run example_normal_draw example_failing_from_cli example_astype 1 example_format_gate
      example_format_name example_time_slice (example_args None None None None) 7 =
  ([], inl (UpstreamError "no frame data")).
Proof.
  apply upstream_error_propagates.
  - intros d Hd. discriminate Hd.
  - reflexivity.
Defined.

Lemma non_gwf_destination_example :
  failed (example_run example_hdf_args 7) /\
  frames (fst (example_run example_hdf_args 7)) = [].
Proof.
  apply (non_gwf_destination_writes_nothing
           example_normal_draw example_from_cli example_astype 1 example_format_gate
           example_format_name example_time_slice example_hdf_args 7).
  - reflexivity.
  - intros prefix Heq.
    assert (H : endswith (output_file example_hdf_args) ".gwf" = true)
      by (apply endswith_spec; exists prefix; exact Heq).
    vm_compute in H. discriminate H.
Defined.



Lemma aux_channels_aligned_example :
  exists r,
    snd (add_idq example_normal_draw (example_args None None None (Some "IDQ"%string)) 7
                 (strain_ts example_strain)) = inr r /\
    Forall (fun s => series_start_time s = 0%Q /\ series_delta_t s = (1 # 4)%Q /\
                     series_length s = 4)
           (snd <$> r).
Proof.
  eexists. split.
  - vm_compute. reflexivity.
  - apply (aux_channels_aligned example_normal_draw
             (example_args None None None (Some "IDQ"%string)) 7
             (strain_ts example_strain)).
    vm_compute. reflexivity.
Defined.

Lemma empty_off_segment_example :
  data (state_vector_ts 2 [(5, 3)%Q] 0 160) = replicate 160 (uint32 2).
Proof.
  apply (empty_off_segment_is_noop 5 3).
  vm_compute. discriminate.
Defined.

Lemma nonpositive_pad_example :
  data (dq_vector_ts 1 [1%Q; 2%Q] 0 0 128) = replicate 128 (uint32 1).
Proof.
  apply (nonpositive_pad_flags_nothing 0).
  vm_compute. discriminate.
Defined.

Lemma overrides_order_independent_example :
  dq_vector_ts 1 [1%Q; 2%Q; 1%Q] (1 # 2) 0 256 = dq_vector_ts 1 [2%Q; 1%Q] (1 # 2) 0 256.
Proof.
  apply overrides_order_independent.
  intros c. rewrite !elem_of_cons, !elem_of_nil. tauto.
Defined.

Lemma segments_by_index_example :
  NoDup (seg_start <$> segments 0 100 30).
Proof.
  apply (segments_by_index 0 100 30). lia.
Defined.
